(** * anki-desktop-docker: the provisioning scripts

    A shallow embedding of [scripts/get_anki_synckey.py] and
    [scripts/setup_anki.py].  The scripts are sequential glue around
    [requests], [zstandard], [json], [sqlite3], [zipfile] and the file
    system, so the embedding has three layers:

    - [Python]: the values the scripts handle (what [json.loads] can
      return), the exceptions they catch, and the few builtins applied to
      those values ([in], subscripting, slicing, truth testing,
      [dict.update]);
    - [Runtime]: what the interpreter would do around the scripts: the
      file system, the ordered record of observable effects, a
      state-and-exception monad with [try]/[except], and the interface of
      the third-party libraries, which is a record [Lib] the scripts are
      parametric in;
    - [get_anki_synckey] and [setup_anki]: the functions of the two
      scripts, statement by statement. *)

From Stdlib Require Import SpecFloat Ascii String.
From stdpp Require Import base option list gmap strings pretty.

Local Open Scope Z_scope.

(** ** Python values, exceptions and builtins *)
Module Python.

(** [str] is a sequence of characters and [bytes] a sequence of octets;
    a character of this model is one of the code points U+0000-U+00FF. *)
Definition bytes := list Byte.byte.

(** The values [json.loads] produces, which are also the values the
    scripts build themselves ([None], flags, numbers, strings, lists and
    insertion-ordered dicts with string keys). *)
#[warnings="-register-all"]
Inductive value : Type :=
  | VNone
  | VBool (b : bool)
  | VInt (n : Z)
  | VFloat (f : spec_float)
  | VStr (s : string)
  | VList (items : list value)
  | VDict (entries : list (string * value)).

(** [type(v).__name__], as it appears in the interpreter's messages. *)
Definition type_name (v : value) : string :=
  match v with
  | VNone => "NoneType"
  | VBool _ => "bool"
  | VInt _ => "int"
  | VFloat _ => "float"
  | VStr _ => "str"
  | VList _ => "list"
  | VDict _ => "dict"
  end.

(** [bool(v)]: the test behind [if v], [not v] and [x or y]. *)
Definition truthy (v : value) : bool :=
  match v with
  | VNone => false
  | VBool b => b
  | VInt n => negb (n =? 0)
  | VFloat (S754_zero _) => false
  | VFloat _ => true
  | VStr s => negb (String.eqb s "")
  | VList items => match items with [] => false | _ => true end
  | VDict entries => match entries with [] => false | _ => true end
  end.

(** *** Dicts

    A dict keeps its keys in insertion order; assigning to a key that is
    present replaces the value in place, assigning to a new key appends. *)
Definition dict := list (string * value).

Fixpoint dict_get (d : dict) (k : string) : option value :=
  match d with
  | [] => None
  | (k', v) :: rest => if String.eqb k' k then Some v else dict_get rest k
  end.

Definition dict_has (d : dict) (k : string) : bool :=
  match dict_get d k with Some _ => true | None => false end.

(** [d[k] = v] *)
Fixpoint dict_set (d : dict) (k : string) (v : value) : dict :=
  match d with
  | [] => [(k, v)]
  | (k', v') :: rest =>
      if String.eqb k' k then (k', v) :: rest
      else (k', v') :: dict_set rest k v
  end.

(** [d.update(other)]: the entries of [other] are assigned in order. *)
Definition dict_update (d other : dict) : dict :=
  fold_left (fun acc kv => dict_set acc kv.1 kv.2) other d.

(** A dict display [{k1: v1, ...}]: later duplicates win. *)
Definition dict_of (entries : list (string * value)) : dict :=
  dict_update [] entries.

(** *** Strings *)

(** [s.startswith(prefix)] *)
Fixpoint str_startswith (prefix s : string) : bool :=
  match prefix with
  | EmptyString => true
  | String a prefix' =>
      match s with
      | EmptyString => false
      | String b s' => Ascii.eqb a b && str_startswith prefix' s'
      end
  end.

(** [needle in haystack] on two strings: substring search. *)
Fixpoint str_contains (needle haystack : string) : bool :=
  str_startswith needle haystack ||
  match haystack with
  | EmptyString => false
  | String _ rest => str_contains needle rest
  end.

(** [s[:n]] *)
Definition str_take (n : nat) (s : string) : string := String.substring 0 n s.

(** [s[-n:]] for [n > 0] *)
Definition str_last (n : nat) (s : string) : string :=
  String.substring (String.length s - n)%nat n s.

(** [s.split(sep)] for a one-character separator. *)
Fixpoint str_split_go (sep : ascii) (cur : string) (s : string) : list string :=
  match s with
  | EmptyString => [String.rev cur]
  | String c rest =>
      if Ascii.eqb c sep then String.rev cur :: str_split_go sep "" rest
      else str_split_go sep (String c cur) rest
  end.

Definition str_split (sep : ascii) (s : string) : list string :=
  str_split_go sep "" s.

(** [c * n] for a one-character string. *)
Fixpoint str_repeat (c : ascii) (n : nat) : string :=
  match n with
  | O => ""
  | S n' => String c (str_repeat c n')
  end.

(** [s.endswith(suffix)] *)
Definition str_endswith (suffix s : string) : bool :=
  str_startswith (String.rev suffix) (String.rev s).

(** The longest prefix without a line feed: what [.+] can match. *)
Fixpoint until_newline (s : string) : string :=
  match s with
  | EmptyString => EmptyString
  | String c rest =>
      if Ascii.eqb c "010"%char then EmptyString
      else String c (until_newline rest)
  end.

(** [s[n:]] *)
Definition str_drop (n : nat) (s : string) : string :=
  String.substring n (String.length s - n)%nat s.

(** [re.match(prefix + "(.+)", s)]: group 1 of the match, if any. *)
Definition match_after (prefix s : string) : option string :=
  if str_startswith prefix s then
    match until_newline (str_drop (String.length prefix) s) with
    | EmptyString => None
    | group => Some group
    end
  else None.

(** [s.encode('utf-8')] on code points below U+0100: one octet below
    U+0080, two octets from there on. *)
Definition encode_char (c : ascii) : bytes :=
  let n := N_of_ascii c in
  if (n <? 128)%N then [default Byte.x00 (Byte.of_N n)]
  else [default Byte.x00 (Byte.of_N (192 + N.shiftr n 6));
        default Byte.x00 (Byte.of_N (128 + N.land n 63))].

Fixpoint encode_utf8 (s : string) : bytes :=
  match s with
  | EmptyString => []
  | String c rest => encode_char c ++ encode_utf8 rest
  end.

(** *** Exceptions

    The classes that a handler of the scripts names or that the modelled
    operations raise, with the part of the class hierarchy between them.
    What [except Exception] does not catch ([KeyboardInterrupt],
    [SystemExit]) comes from outside the exchange and is not modelled. *)
Inductive exc_class : Type :=
  | Exception
  | OSError
  | FileExistsError
  | RequestException
  | Timeout
  | ValueError
  | JSONDecodeError
  | UnicodeDecodeError
  | ZstdError
  | TypeError
  | AttributeError
  | KeyError
  | IndexError
  | BadZipFile
  | OperationalError
  | IntegrityError.

Global Instance exc_class_eq_dec : EqDecision exc_class.
Proof. solve_decision. Defined.

(** The direct base class; [Exception] is the root of what is modelled. *)
Definition base_class (c : exc_class) : option exc_class :=
  match c with
  | Exception => None
  | FileExistsError => Some OSError
  | RequestException => Some OSError
  | Timeout => Some RequestException
  | JSONDecodeError => Some ValueError
  | UnicodeDecodeError => Some ValueError
  | _ => Some Exception
  end.

Fixpoint issubclass_fuel (fuel : nat) (c d : exc_class) : bool :=
  bool_decide (c = d) ||
  match fuel, base_class c with
  | S fuel', Some b => issubclass_fuel fuel' b d
  | _, _ => false
  end.

(** No chain of base classes is longer than four. *)
Definition issubclass (c d : exc_class) : bool := issubclass_fuel 4 c d.

(** A raised exception: its class and [str(e)]. *)
Record exc : Type := Exc { exc_cls : exc_class; exc_str : string }.

Definition isinstance (e : exc) (d : exc_class) : bool :=
  issubclass (exc_cls e) d.

End Python.

(** ** The interpreter around the scripts *)
Module Runtime.
Import Python.

(** *** The file system

    A [pathlib.Path] is its sequence of components; the root of an
    absolute path is an empty first component, and a directory node like
    any other. *)
Definition path := list string.

(** [p / name] *)
Definition path_join (p : path) (name : string) : path := p ++ [name].

(** [str(p)] *)
Definition path_str (p : path) : string := String.concat "/" p.

(** An SQLite statement the scripts execute. *)
Inductive sql : Type :=
  | CreateProfilesTable
  | InsertProfile (name : string) (data : bytes).

(** What a path holds: a directory, a file with its octets, or a
    database file with the statements committed to it. *)
Inductive node : Type :=
  | Directory
  | File (data : bytes)
  | Database (committed : list sql).

(** *** Observable effects, in the order they happen *)
Inductive event : Type :=
  | Stdout (line : string)
  | Stderr (line : string)
  | HttpPost (url : string) (data : bytes) (headers : list (string * string))
             (timeout : Z)
  | HttpGet (url : string) (allow_redirects : bool) (timeout : Z)
  | ZstdDecompress (data : bytes) (max_output_size : Z)
  | ZstdStreamRead (data : bytes)
  | JsonLoads (data : bytes)
  | JsonLoadsStr (text : string)
  | FsExists (p : path)
  | FsRead (p : path)
  | FsWrite (p : path)
  | FsMkdir (p : path)
  | SqlExecute (p : path) (stmt : sql)
  | SqlCommit (p : path).

Record state : Type := State {
  fs : gmap path node;
  trace : list event
}.

(** *** Computations: a final state, and a value or a raised exception *)
Inductive result (A : Type) : Type :=
  | Ret (a : A)
  | Raise (e : exc).
Arguments Ret {A} a.
Arguments Raise {A} e.

Definition M (A : Type) : Type := state -> result A * state.

Definition ret {A} (a : A) : M A := fun st => (Ret a, st).

Definition raise {A} (e : exc) : M A := fun st => (Raise e, st).

Definition bind {A B} (m : M A) (k : A -> M B) : M B :=
  fun st =>
    match m st with
    | (Ret a, st') => k a st'
    | (Raise e, st') => (Raise e, st')
    end.

Declare Scope py_scope.
Delimit Scope py_scope with py.
Bind Scope py_scope with M.
Notation "x <- m ;; k" := (bind m (fun x => k))
  (at level 100, m at next level, k at level 200, right associativity)
  : py_scope.
Notation "m ;; k" := (bind m (fun _ => k))
  (at level 100, k at level 200, right associativity) : py_scope.
Open Scope py_scope.

(** A handler clause [except cls as e: body]. *)
Definition clause (A : Type) : Type := exc_class * (exc -> M A).

(** The first clause whose class the exception is an instance of runs;
    with no such clause the exception propagates. *)
Fixpoint dispatch {A} (clauses : list (clause A)) (e : exc) : M A :=
  match clauses with
  | [] => raise e
  | (cls, body) :: rest =>
      if isinstance e cls then body e else dispatch rest e
  end.

(** [try: m  except ...: ...] where every path of [m] and of the clauses
    ends in a [return] (or raises). *)
Definition try_except {A} (m : M A) (clauses : list (clause A)) : M A :=
  fun st =>
    match m st with
    | (Ret a, st') => (Ret a, st')
    | (Raise e, st') => dispatch clauses e st'
    end.

Definition emit (ev : event) : M unit :=
  fun st => (Ret tt, State (fs st) (trace st ++ [ev])).

Definition get_fs : M (gmap path node) := fun st => (Ret (fs st), st).

Definition put_fs (f : gmap path node) : M unit :=
  fun st => (Ret tt, State f (trace st)).

(** [print(line)] and [print(line, file=sys.stderr)]; writing to the
    console is taken to succeed. *)
Definition print (line : string) : M unit := emit (Stdout line).
Definition print_err (line : string) : M unit := emit (Stderr line).

(** *** Builtins on values that may raise *)

(** [str(v)] of the values whose text does not depend on the rendering
    of floats and containers; [repr_value] supplies the others. *)
Definition str_value (repr_value : value -> string) (v : value) : string :=
  match v with
  | VNone => "None"
  | VBool true => "True"
  | VBool false => "False"
  | VInt n => pretty n
  | VStr s => s
  | _ => repr_value v
  end.

Definition is_str (s : string) (v : value) : bool :=
  match v with VStr s' => String.eqb s' s | _ => false end.

(** [key in container] for a string [key]: a key of a dict, an element
    of a list, a substring of a string; the other types are not
    containers. *)
Definition contains (key : string) (container : value) : M bool :=
  match container with
  | VDict entries => ret (dict_has entries key)
  | VList items => ret (existsb (is_str key) items)
  | VStr s => ret (str_contains key s)
  | v => raise (Exc TypeError
           ("argument of type '" +:+ type_name v +:+ "' is not iterable"))
  end.

(** [container[key]] for a string [key]. *)
Definition getitem (container : value) (key : string) : M value :=
  match container with
  | VDict entries =>
      match dict_get entries key with
      | Some v => ret v
      | None => raise (Exc KeyError ("'" +:+ key +:+ "'"))
      end
  | VList _ =>
      raise (Exc TypeError "list indices must be integers or slices, not str")
  | VStr _ =>
      raise (Exc TypeError "string indices must be integers, not 'str'")
  | v => raise (Exc TypeError
           ("'" +:+ type_name v +:+ "' object is not subscriptable"))
  end.

(** [v[:n]]; a dict cannot be sliced ([TypeError] up to Python 3.11,
    [KeyError] from 3.12 on, which the scripts handle alike). *)
Definition slice_to (v : value) (n : nat) : M value :=
  match v with
  | VStr s => ret (VStr (str_take n s))
  | VList items => ret (VList (take n items))
  | VDict _ => raise (Exc TypeError "unhashable type: 'slice'")
  | v => raise (Exc TypeError
           ("'" +:+ type_name v +:+ "' object is not subscriptable"))
  end.

(** [v[-n:]] *)
Definition slice_last (v : value) (n : nat) : M value :=
  match v with
  | VStr s => ret (VStr (str_last n s))
  | VList items => ret (VList (drop (length items - n) items))
  | VDict _ => raise (Exc TypeError "unhashable type: 'slice'")
  | v => raise (Exc TypeError
           ("'" +:+ type_name v +:+ "' object is not subscriptable"))
  end.

(** [l[i]] on a list of strings *)
Definition index (l : list string) (i : nat) : M string :=
  match l !! i with
  | Some x => ret x
  | None => raise (Exc IndexError "list index out of range")
  end.

(** [v.items()] *)
Definition items (v : value) : M (list (string * value)) :=
  match v with
  | VDict entries => ret entries
  | v => raise (Exc AttributeError
           ("'" +:+ type_name v +:+ "' object has no attribute 'items'"))
  end.

(** [len(v)] *)
Definition len (v : value) : M nat :=
  match v with
  | VStr s => ret (String.length s)
  | VList l => ret (length l)
  | VDict d => ret (length d)
  | v => raise (Exc TypeError
           ("object of type '" +:+ type_name v +:+ "' has no len()"))
  end.

(** [v.get(key, fallback)] *)
Definition get_default (v : value) (key : string) (fallback : value)
    : M value :=
  match v with
  | VDict entries => ret (default fallback (dict_get entries key))
  | v => raise (Exc AttributeError
           ("'" +:+ type_name v +:+ "' object has no attribute 'get'"))
  end.

(** [v.update(other)]: the updated dict ([v] is changed in place). *)
Definition update (v : value) (other : dict) : M value :=
  match v with
  | VDict entries => ret (VDict (dict_update entries other))
  | v => raise (Exc AttributeError
           ("'" +:+ type_name v +:+ "' object has no attribute 'update'"))
  end.

(** *** The libraries and the environment

    What the scripts call but do not define.  A [Lib] fixes the codecs
    and, for the duration of one run, how the network answers. *)

(** A [requests.Response]. *)
Record Response : Type := {
  status_code : Z;
  content : bytes;
  headers : list (string * string);
  url : string
}.

(** [requests.post]/[requests.get]: a response, or an exception
    ([requests.exceptions.Timeout], another [RequestException], ...). *)
Inductive http_result : Type :=
  | Responded (r : Response)
  | HttpRaised (e : exc).

(** [ZstdDecompressor]: the decompressed octets, or [ZstdError]. *)
Inductive zstd_result : Type :=
  | Decompressed (data : bytes)
  | ZstdFailed (msg : string).

(** [json.loads]: a value, [JSONDecodeError] for text that is not JSON,
    or [UnicodeDecodeError] for octets that are not text. *)
Inductive loads_result : Type :=
  | Loaded (v : value)
  | NotJson (msg : string)
  | NotText (msg : string).

Record Lib : Type := {
  (** [json.dumps(v)] and [json.dumps(v, indent=2, ensure_ascii=False)] *)
  json_dumps : value -> string;
  json_dumps_indent2 : value -> string;
  (** [json.loads] of [bytes] *)
  json_loads : bytes -> loads_result;
  (** [json.loads] of a [str]: [None] stands for [JSONDecodeError] *)
  json_loads_str : string -> option value;
  (** [ZstdCompressor().compress(data)] *)
  zstd_compress : bytes -> bytes;
  (** [ZstdDecompressor().decompress(data, max_output_size=n)] *)
  zstd_decompress : bytes -> Z -> zstd_result;
  (** [ZstdDecompressor().stream_reader(data).read()] *)
  zstd_stream_read : bytes -> zstd_result;
  (** [requests.post(url, data=, headers=, timeout=)] *)
  requests_post : string -> bytes -> list (string * string) -> Z -> http_result;
  (** [requests.get(url, allow_redirects=, timeout=)] *)
  requests_get : string -> bool -> Z -> http_result;
  (** [pickle.dumps(v, protocol=4)] *)
  pickle_dumps : value -> bytes;
  (** [repr] of floats, lists and dicts *)
  repr_value : value -> string;
  (** [os.getenv(name)] *)
  getenv : string -> option string;
  (** the locale codec of [Path.write_text] and [Path.read_text] *)
  text_encode : string -> option bytes;
  text_decode : bytes -> option string;
  (** [ZipFile(BytesIO(data))]: the members in archive order, or
      [BadZipFile] *)
  zip_members : bytes -> option (list (string * bytes));
  (** [parse_qs(urlparse(url).query)] *)
  url_query : string -> list (string * list string);
  (** [int(text)], or [ValueError] *)
  int_of_str : string -> option Z
}.

Section Primitives.
Context (lib : Lib).

Definition str (v : value) : string := str_value (repr_value lib) v.

Definition post (url : string) (data : bytes)
    (hdrs : list (string * string)) (timeout : Z) : M Response :=
  emit (HttpPost url data hdrs timeout);;
  match requests_post lib url data hdrs timeout with
  | Responded r => ret r
  | HttpRaised e => raise e
  end.

Definition get (url : string) (allow_redirects : bool) (timeout : Z)
    : M Response :=
  emit (HttpGet url allow_redirects timeout);;
  match requests_get lib url allow_redirects timeout with
  | Responded r => ret r
  | HttpRaised e => raise e
  end.

Definition decompress (data : bytes) (max_output_size : Z) : M bytes :=
  emit (ZstdDecompress data max_output_size);;
  match zstd_decompress lib data max_output_size with
  | Decompressed out => ret out
  | ZstdFailed msg => raise (Exc ZstdError msg)
  end.

Definition stream_read (data : bytes) : M bytes :=
  emit (ZstdStreamRead data);;
  match zstd_stream_read lib data with
  | Decompressed out => ret out
  | ZstdFailed msg => raise (Exc ZstdError msg)
  end.

Definition of_loads (r : loads_result) : M value :=
  match r with
  | Loaded v => ret v
  | NotJson msg => raise (Exc JSONDecodeError msg)
  | NotText msg => raise (Exc UnicodeDecodeError msg)
  end.

Definition loads (data : bytes) : M value :=
  emit (JsonLoads data);;
  of_loads (json_loads lib data).

(** [p.parent] *)
Definition parent (p : path) : path := removelast p.

(** [p.exists()] *)
Definition path_exists (p : path) : M bool :=
  emit (FsExists p);;
  f <- get_fs;;
  ret (bool_decide (is_Some (f !! p))).

(** [p.mkdir(parents=True, exist_ok=True)]: the missing ancestors are
    created from the outermost one; a directory in place is accepted, any
    other node in the way is an error. *)
Fixpoint mkdir_parents_go (done : path) (todo : list string) : M unit :=
  match todo with
  | [] => ret tt
  | name :: todo' =>
      let p := path_join done name in
      f <- get_fs;;
      match f !! p with
      | None =>
          emit (FsMkdir p);;
          put_fs (<[p := Directory]> f);;
          mkdir_parents_go p todo'
      | Some Directory => mkdir_parents_go p todo'
      | Some _ =>
          raise (Exc FileExistsError ("File exists: '" +:+ path_str p +:+ "'"))
      end
  end.

Definition mkdir_parents (p : path) : M unit := mkdir_parents_go [] p.

(** [p.mkdir(exist_ok=True)] *)
Definition mkdir_exist_ok (p : path) : M unit :=
  f <- get_fs;;
  match f !! p with
  | Some Directory => ret tt
  | Some _ =>
      raise (Exc FileExistsError ("File exists: '" +:+ path_str p +:+ "'"))
  | None =>
      match f !! parent p with
      | Some Directory =>
          emit (FsMkdir p);;
          put_fs (<[p := Directory]> f)
      | _ =>
          raise (Exc OSError
                   ("No such file or directory: '" +:+ path_str p +:+ "'"))
      end
  end.

(** Opening [p] for writing truncates it; the directory above must
    exist and [p] must not be a directory. *)
Definition open_write (p : path) : M unit :=
  f <- get_fs;;
  match f !! p, f !! parent p with
  | Some Directory, _ =>
      raise (Exc OSError ("Is a directory: '" +:+ path_str p +:+ "'"))
  | _, Some Directory =>
      emit (FsWrite p);;
      put_fs (<[p := File []]> f)
  | _, _ =>
      raise (Exc OSError
               ("No such file or directory: '" +:+ path_str p +:+ "'"))
  end.

(** [p.write_bytes(data)] *)
Definition write_bytes (p : path) (data : bytes) : M unit :=
  open_write p;;
  f <- get_fs;;
  put_fs (<[p := File data]> f).

(** [p.write_text(text)] *)
Definition write_text (p : path) (text : string) : M unit :=
  open_write p;;
  match text_encode lib text with
  | Some data =>
      f <- get_fs;;
      put_fs (<[p := File data]> f)
  | None => raise (Exc ValueError "codec can't encode characters")
  end.

(** [p.read_text()] *)
Definition read_text (p : path) : M string :=
  emit (FsRead p);;
  f <- get_fs;;
  match f !! p with
  | Some (File data) =>
      match text_decode lib data with
      | Some text => ret text
      | None => raise (Exc UnicodeDecodeError "codec can't decode bytes")
      end
  | Some (Database _) =>
      raise (Exc UnicodeDecodeError "codec can't decode bytes")
  | Some Directory =>
      raise (Exc OSError ("Is a directory: '" +:+ path_str p +:+ "'"))
  | None =>
      raise (Exc OSError
               ("No such file or directory: '" +:+ path_str p +:+ "'"))
  end.

(** [json.loads(text)] for a [str] *)
Definition loads_str (text : string) : M value :=
  emit (JsonLoadsStr text);;
  match json_loads_str lib text with
  | Some v => ret v
  | None => raise (Exc JSONDecodeError "Expecting value")
  end.

End Primitives.

(** Folding of the letters A-Z, as SQLite's [NOCASE] and the header
    names of [requests] do. *)
Definition ascii_lower (c : ascii) : ascii :=
  let n := nat_of_ascii c in
  if (65 <=? n)%nat && (n <=? 90)%nat then ascii_of_nat (n + 32) else c.

Fixpoint str_lower (s : string) : string :=
  match s with
  | EmptyString => EmptyString
  | String c rest => String (ascii_lower c) (str_lower rest)
  end.

(** [p / member] for a member name with [/] separators: an absolute
    name replaces [p]; empty and [.] components are dropped. *)
Definition path_join_name (p : path) (member : string) : path :=
  let parts :=
    filter (fun c => c <> "" /\ c <> ".") (str_split "/" member) in
  if str_startswith "/" member then "" :: parts else p ++ parts.

(** [headers.get(name, fallback)]: header names compare without case. *)
Definition header_get (hdrs : list (string * string)) (name fallback : string)
    : string :=
  match find (fun kv => String.eqb (str_lower kv.1) (str_lower name)) hdrs with
  | Some kv => kv.2
  | None => fallback
  end.

(** *** SQLite

    A connection is the path of its database file and the statements of
    the open transaction. *)
Record connection : Type := Connection {
  conn_path : path;
  pending : list sql
}.

Definition has_table (stmts : list sql) : bool :=
  existsb (fun q => match q with CreateProfilesTable => true | _ => false end)
          stmts.

Definition has_profile (name : string) (stmts : list sql) : bool :=
  existsb (fun q => match q with
                    | InsertProfile n _ =>
                        String.eqb (str_lower n) (str_lower name)
                    | _ => false
                    end) stmts.

(** [sqlite3.connect(str(p))]: a missing file is created, empty. *)
Definition sqlite3_connect (p : path) : M connection :=
  f <- get_fs;;
  match f !! p, f !! parent p with
  | Some Directory, _ =>
      raise (Exc OperationalError "unable to open database file")
  | Some _, _ => ret (Connection p [])
  | None, Some Directory =>
      emit (FsWrite p);;
      put_fs (<[p := Database []]> f);;
      ret (Connection p [])
  | None, _ => raise (Exc OperationalError "unable to open database file")
  end.

(** [cursor.execute(stmt)]: [CREATE TABLE] runs outside a transaction
    and is committed at once; an [INSERT] joins the open transaction. *)
Definition execute (conn : connection) (stmt : sql) : M connection :=
  emit (SqlExecute (conn_path conn) stmt);;
  f <- get_fs;;
  match f !! conn_path conn with
  | Some (Database committed) =>
      match stmt with
      | CreateProfilesTable =>
          if has_table committed then
            raise (Exc OperationalError "table profiles already exists")
          else
            put_fs (<[conn_path conn := Database (committed ++ [stmt])]> f);;
            ret conn
      | InsertProfile name _ =>
          if negb (has_table committed) then
            raise (Exc OperationalError "no such table: profiles")
          else if has_profile name (committed ++ pending conn) then
            raise (Exc IntegrityError "UNIQUE constraint failed: profiles.name")
          else ret (Connection (conn_path conn) (pending conn ++ [stmt]))
      end
  | _ => raise (Exc OperationalError "file is not a database")
  end.

(** [conn.commit()] *)
Definition commit (conn : connection) : M connection :=
  emit (SqlCommit (conn_path conn));;
  f <- get_fs;;
  match f !! conn_path conn with
  | Some (Database committed) =>
      put_fs (<[conn_path conn := Database (committed ++ pending conn)]> f);;
      ret (Connection (conn_path conn) [])
  | _ => raise (Exc OperationalError "file is not a database")
  end.

(** *** Runs

    A run starts from a file system and an empty record of effects. *)
Definition run {A} (m : M A) (f : gmap path node) : result A * state :=
  m (State f []).

(** [wp m Q f tr]: run from the files [f] and the effects [tr], [m] ends
    with a result, files and effects that satisfy [Q]. *)
Definition wp {A} (m : M A)
    (Q : result A -> gmap path node -> list event -> Prop)
    (f : gmap path node) (tr : list event) : Prop :=
  Q (m (State f tr)).1 (fs (m (State f tr)).2) (trace (m (State f tr)).2).

End Runtime.

(** ** scripts/get_anki_synckey.py *)
Module get_anki_synckey.
Import Python Runtime.

Definition ANKIWEB_HOST_KEY_URL : string :=
  "https://sync21.ankiweb.net/sync/hostKey".

Section Script.
Context (lib : Lib).

(** [len(b)] rendered in an f-string *)
Definition len_str (b : bytes) : string := pretty (Z.of_nat (length b)).

Definition log_debug (message : string) (debug : bool) : M unit :=
  if debug then print_err ("[DEBUG] " +:+ message) else ret tt.

(** [{k: ('***' if k == 'key' else v) for k, v in data.items()}] *)
Definition sanitize (entries : list (string * value)) : dict :=
  dict_of (map (fun kv => (kv.1, if String.eqb kv.1 "key" then VStr "***"
                                 else kv.2)) entries).

(** The text of
    [f"Sync key retrieved: {sync_key[:4]}***{sync_key[-4:]}"]; the two
    slices are evaluated whether or not the line is printed. *)
Definition retrieved_message (sync_key : value) : M string :=
  head4 <- slice_to sync_key 4;;
  tail4 <- slice_last sync_key 4;;
  ret ("Sync key retrieved: " +:+ str lib head4 +:+ "***" +:+ str lib tail4).

Definition sync_header : value :=
  VDict [("v", VInt 11); ("k", VStr "");
         ("c", VStr "anki,24.11.3 (dev),linux"); ("s", VStr "")].

Definition get_sync_key (username password : string) (debug : bool)
    : M value :=
  sanitized_user <-
    (if str_contains "@" username && debug then
       let parts := str_split "@" username in
       p0 <- index parts 0;;
       p1 <- index parts 1;;
       ret (str_take 2 p0 +:+ "***@" +:+ p1)
     else ret username);;
  log_debug ("Authenticating as: " +:+
             (if debug then sanitized_user else "***")) debug;;
  let payload := VDict [("u", VStr username); ("p", VStr password)] in
  let body_json := encode_utf8 (json_dumps lib payload) in
  log_debug ("Payload size: " +:+ len_str body_json +:+ " bytes") debug;;
  let compressed_body := zstd_compress lib body_json in
  log_debug ("Compressed size: " +:+ len_str compressed_body +:+ " bytes")
            debug;;
  log_debug ("Sync protocol version: " +:+ str lib (VInt 11)) debug;;
  let headers :=
    [("anki-sync", json_dumps lib sync_header);
     ("Content-Type", "application/octet-stream");
     ("User-Agent", "Anki")] in
  log_debug ("Sending POST to: " +:+ ANKIWEB_HOST_KEY_URL) debug;;
  try_except
    (response <- post lib ANKIWEB_HOST_KEY_URL compressed_body headers 30;;
     log_debug ("Response status: " +:+ pretty (status_code response)) debug;;
     log_debug ("Response size: " +:+ len_str (content response) +:+ " bytes")
               debug;;
     if negb (status_code response =? 200) then
       print_err ("Error: HTTP " +:+ pretty (status_code response) +:+
                  " from AnkiWeb");;
       ret (VStr "")
     else
       try_except
         (decompressed_body <-
            decompress lib (content response) (10 * 1024 * 1024);;
          log_debug ("Decompressed size: " +:+ len_str decompressed_body +:+
                     " bytes") debug;;
          data <- loads lib decompressed_body;;
          (if debug then
             entries <- items data;;
             log_debug ("Response data: " +:+
                        json_dumps lib (VDict (sanitize entries))) debug
           else ret tt);;
          has_key <- contains "key" data;;
          if has_key then
            sync_key <- getitem data "key";;
            message <- retrieved_message sync_key;;
            log_debug message debug;;
            ret sync_key
          else
            print_err "Error: No 'key' in AnkiWeb response";;
            ret (VStr ""))
         [(ZstdError, fun e =>
            log_debug "zstd error, trying streaming decompression" debug;;
            decompressed_body <- stream_read lib (content response);;
            data <- loads lib decompressed_body;;
            has_key <- contains "key" data;;
            if has_key then
              sync_key <- getitem data "key";;
              message <- retrieved_message sync_key;;
              log_debug message debug;;
              ret sync_key
            else
              print_err "Error: No 'key' in response";;
              ret (VStr ""))])
    [(Timeout, fun _ =>
       print_err "Error: Connection timeout";;
       ret (VStr ""));
     (RequestException, fun e =>
       print_err ("Error: Connection failed: " +:+ exc_str e);;
       ret (VStr ""));
     (JSONDecodeError, fun e =>
       print_err ("Error: Invalid JSON response: " +:+ exc_str e);;
       ret (VStr ""));
     (Exception, fun e =>
       print_err ("Error: " +:+ exc_str e);;
       ret (VStr ""))].

(** [main] from the point where [parser.parse_args()] has returned
    [args]: the value is the exit status passed to [sys.exit].  What
    [argparse] does before is not part of this definition: it ends the
    program itself with status 2 when [--user] or [--password] is missing
    or an argument is unknown, and with status 0 after printing the help
    text for [--help]. *)
Definition main (user password : string) (debug : bool) : M Z :=
  sync_key <- get_sync_key user password debug;;
  if truthy sync_key then
    print (str lib sync_key);;
    ret 0
  else ret 1.

End Script.
End get_anki_synckey.

(** ** scripts/setup_anki.py *)
Module setup_anki.
Import Python Runtime.

Definition ANKICONNECT_ADDON_ID : Z := 2055492159.
Definition ANKIWEB_SYNC_URL : string := "https://sync21.ankiweb.net/".
Definition ANKIWEB_HOST_KEY_URL : string :=
  "https://sync21.ankiweb.net/sync/hostKey".
Definition ANKIWEB_SHARED_URL : string := "https://ankiweb.net/shared/".
Definition ANKI_VERSION : string := "2.1".
Definition DEFAULT_PROFILE : string := "user".

(** The attributes [AnkiSetup.__init__] stores. *)
Record AnkiSetup : Type := {
  config_dir : path;
  anki2_dir : path;
  prefs_db : path;
  addons_dir : path;
  verbose : bool;
  ankiconnect_config : dict
}.

(** [AnkiSetup(config_dir, verbose, ankiconnect_config)] *)
Definition init (config_dir : path) (verbose : bool)
    (ankiconnect_config : option dict) : AnkiSetup :=
  let anki2_dir :=
    path_join (path_join (path_join config_dir ".local") "share") "Anki2" in
  {| config_dir := config_dir;
     anki2_dir := anki2_dir;
     prefs_db := path_join anki2_dir "prefs21.db";
     addons_dir := path_join anki2_dir "addons21";
     verbose := verbose;
     ankiconnect_config :=
       match ankiconnect_config with
       | Some ((_ :: _) as d) => d
       | _ => []
       end |}.

Section Script.
Context (lib : Lib).

Section Methods.
Context (self : AnkiSetup).

Definition log (message : string) : M unit :=
  if verbose self then print ("  " +:+ message) else ret tt.

Definition info (message : string) : M unit := print message.

Definition sync_header : value :=
  VDict [("v", VInt 11); ("k", VStr "");
         ("c", VStr "anki,24.11.3 (dev),linux"); ("s", VStr "")].

(** The result is the sync key, or [None]. *)
Definition get_sync_key_from_server (username password : string) : M value :=
  let payload := VDict [("u", VStr username); ("p", VStr password)] in
  let body_json := encode_utf8 (json_dumps lib payload) in
  let compressed_body := zstd_compress lib body_json in
  let headers :=
    [("anki-sync", json_dumps lib sync_header);
     ("Content-Type", "application/octet-stream");
     ("User-Agent", "Anki")] in
  log ("Authenticating with AnkiWeb as " +:+ username);;
  try_except
    (response <- post lib ANKIWEB_HOST_KEY_URL compressed_body headers 30;;
     if negb (status_code response =? 200) then
       info ("[ERROR] HTTP " +:+ pretty (status_code response) +:+
             " from AnkiWeb");;
       ret VNone
     else
       try_except
         (decompressed_body <-
            decompress lib (content response) (10 * 1024 * 1024);;
          data <- loads lib decompressed_body;;
          has_key <- contains "key" data;;
          if has_key then
            log "Successfully retrieved sync key";;
            getitem data "key"
          else
            info "[ERROR] No 'key' in AnkiWeb response";;
            ret VNone)
         [(ZstdError, fun _ =>
            decompressed_body <- stream_read lib (content response);;
            data <- loads lib decompressed_body;;
            has_key <- contains "key" data;;
            if has_key then
              log "Successfully retrieved sync key";;
              getitem data "key"
            else
              info "[ERROR] No 'key' in response";;
              ret VNone)])
    [(RequestException, fun e =>
       info ("[ERROR] Connection error: " +:+ exc_str e);;
       ret VNone);
     (Exception, fun e =>
       info ("[ERROR] " +:+ exc_str e);;
       ret VNone)].

(** [if not x] on an optional string: [None] and the empty string are
    false. *)
Definition truthy_opt (o : option string) : bool :=
  match o with
  | Some s => negb (String.eqb s "")
  | None => false
  end.

(** The value of [final_sync_key] after the "Determine sync key" block,
    or [None] where that block returns [False]. *)
Definition determine_sync_key (sync_user sync_key : string)
    (sync_password : option string) (no_sync : bool) : M (option value) :=
  let final_sync_key := VStr sync_key in
  if negb (truthy final_sync_key) && truthy_opt sync_password && negb no_sync
  then
    if negb (truthy (VStr sync_user)) then
      info "[ERROR] sync_user required when using password";;
      ret None
    else
      final_sync_key <-
        get_sync_key_from_server sync_user (default "" sync_password);;
      if negb (truthy final_sync_key) then
        info "[ERROR] Failed to retrieve sync key from AnkiWeb";;
        ret None
      else ret (Some final_sync_key)
  else ret (Some final_sync_key).

Definition create_profile (sync_user sync_key : string)
    (sync_password : option string) (no_sync : bool) : M bool :=
  present <- path_exists (prefs_db self);;
  if present then
    info ("[OK] Profile database already exists: " +:+
          path_str (prefs_db self));;
    ret true
  else
    info "[*] Creating profile database...";;
    determined <- determine_sync_key sync_user sync_key sync_password no_sync;;
    match determined with
    | None => ret false
    | Some final_sync_key =>
        mkdir_parents (anki2_dir self);;
        conn <- sqlite3_connect (prefs_db self);;
        conn <- execute conn CreateProfilesTable;;
        let default_lang := default "en_US" (getenv lib "ANKI_LANG") in
        let global_data :=
          VDict [("last_loaded_profile", VStr DEFAULT_PROFILE);
                 ("defaultLang", VStr default_lang);
                 ("firstRun", VBool false)] in
        let global_blob := pickle_dumps lib global_data in
        conn <- execute conn (InsertProfile "_global" global_blob);;
        log "Created _global profile record";;
        let profile_data :=
          VDict [("syncUser", if negb no_sync then VStr sync_user else VStr "");
                 ("syncKey", if negb no_sync then final_sync_key else VStr "");
                 ("currentSyncUrl", VStr ANKIWEB_SYNC_URL);
                 ("hostNum", VInt 21);
                 ("autoSync", VBool (truthy final_sync_key));
                 ("syncMedia", VBool (truthy final_sync_key))] in
        let profile_blob := pickle_dumps lib profile_data in
        conn <- execute conn (InsertProfile DEFAULT_PROFILE profile_blob);;
        log ("Created '" +:+ DEFAULT_PROFILE +:+ "' profile record");;
        (if truthy (VStr sync_user) then
           log ("  syncUser: " +:+ sync_user);;
           masked <-
             (if truthy final_sync_key then
                n <- len final_sync_key;;
                ret (str_repeat "*" n)
              else ret "(empty)");;
           log ("  syncKey: " +:+ masked)
         else ret tt);;
        conn <- commit conn;;
        info ("[OK] Profile database created: " +:+ path_str (prefs_db self));;
        ret true
    end.

Definition get_int_version (year month patch : Z) : Z :=
  year * 10000 + month * 100 + patch.

(** What [download_addon] returns on success. *)
Record download : Type := {
  data : bytes;
  filename : string;
  mod_time : Z;
  min_point_version : Z;
  max_point_version : Z;
  branch_index : Z
}.

(** [int(query[name][0]) if name in query else 0] *)
Definition query_int (query : list (string * list string)) (name : string)
    : M Z :=
  match find (fun kv => String.eqb kv.1 name) query with
  | Some kv =>
      text <- index kv.2 0;;
      match int_of_str lib text with
      | Some n => ret n
      | None =>
          raise (Exc ValueError
                   ("invalid literal for int() with base 10: '" +:+ text +:+
                    "'"))
      end
  | None => ret 0
  end.

Definition download_addon (addon_id : Z) : M (option download) :=
  let current_version := get_int_version 24 11 3 in
  let url := ANKIWEB_SHARED_URL +:+ "download/" +:+ pretty addon_id +:+
             "?v=" +:+ ANKI_VERSION +:+ "&p=" +:+ pretty current_version in
  log ("Downloading from: " +:+ url);;
  try_except
    (response <- get lib url true 30;;
     if negb (status_code response =? 200) then
       info ("[ERROR] HTTP " +:+ pretty (status_code response));;
       ret None
     else
       let content_disp :=
         header_get (headers response) "content-disposition" "" in
       let filename :=
         match match_after "attachment; filename=" content_disp with
         | Some group => group
         | None => pretty addon_id +:+ ".ankiaddon"
         end in
       let query := url_query lib (Runtime.url response) in
       t <- query_int query "t";;
       minpt <- query_int query "minpt";;
       maxpt <- query_int query "maxpt";;
       bidx <- query_int query "bidx";;
       log ("Downloaded: " +:+ filename +:+ " (" +:+
            pretty (Z.of_nat (length (content response))) +:+ " bytes)");;
       ret (Some {| data := content response;
                    filename := filename;
                    mod_time := t;
                    min_point_version := minpt;
                    max_point_version := maxpt;
                    branch_index := bidx |}))
    [(Exception, fun e =>
       info ("[ERROR] Download failed: " +:+ exc_str e);;
       ret None)].

(** [ZipFile(BytesIO(zip_data))] *)
Definition zip_open (zip_data : bytes) : M (list (string * bytes)) :=
  match zip_members lib zip_data with
  | Some members => ret members
  | None => raise (Exc BadZipFile "File is not a zip file")
  end.

(** [zf.open(name).read()]: the last member of that name. *)
Definition zip_read (members : list (string * bytes)) (name : string)
    : M bytes :=
  match find (fun kv => String.eqb kv.1 name) (reverse members) with
  | Some kv => ret kv.2
  | None =>
      raise (Exc KeyError
               ("There is no item named '" +:+ name +:+ "' in the archive"))
  end.

Definition read_manifest_from_zip (zip_data : bytes) : M value :=
  try_except
    (zf <- zip_open zip_data;;
     text <- zip_read zf "manifest.json";;
     loads lib text)
    [(KeyError, fun _ => ret (VDict []));
     (JSONDecodeError, fun _ => ret (VDict []));
     (BadZipFile, fun _ => ret (VDict []))].

(** The loop over [zf.namelist()]. *)
Fixpoint extract_members (addon_folder : path)
    (zf : list (string * bytes)) (names : list string) : M unit :=
  match names with
  | [] => ret tt
  | member :: rest =>
      if str_endswith "/" member then extract_members addon_folder zf rest
      else
        let target_path := path_join_name addon_folder member in
        mkdir_parents (parent target_path);;
        source <- zip_read zf member;;
        write_bytes target_path source;;
        log ("Extracted: " +:+ member);;
        extract_members addon_folder zf rest
  end.

(** The loop [for key in [...]: if key in manifest: meta[key] = manifest[key]]. *)
Fixpoint merge_manifest (manifest : value) (keys : list string) (meta : dict)
    : M dict :=
  match keys with
  | [] => ret meta
  | key :: rest =>
      present <- contains key manifest;;
      if present then
        v <- getitem manifest key;;
        merge_manifest manifest rest (dict_set meta key v)
      else merge_manifest manifest rest meta
  end.

Definition addon_folder : path :=
  path_join (addons_dir self) (pretty ANKICONNECT_ADDON_ID).

Definition install_addon : M bool :=
  present <- path_exists addon_folder;;
  if present then
    info ("[OK] AnkiConnect already installed: " +:+ path_str addon_folder);;
    ret true
  else
    info "[*] Installing AnkiConnect add-on...";;
    result <- download_addon ANKICONNECT_ADDON_ID;;
    match result with
    | None =>
        info "[ERROR] Failed to download AnkiConnect";;
        ret false
    | Some result =>
        manifest <- read_manifest_from_zip (data result);;
        addon_name <-
          get_default manifest "name"
            (VStr ("Addon " +:+ pretty ANKICONNECT_ADDON_ID));;
        log ("Installing: " +:+ str lib addon_name);;
        mkdir_parents (addons_dir self);;
        mkdir_exist_ok addon_folder;;
        try_except
          (zf <- zip_open (data result);;
           extract_members addon_folder zf (map fst zf);;
           let meta :=
             [("name", addon_name);
              ("mod", VInt (mod_time result));
              ("min_point_version", VInt (min_point_version result));
              ("max_point_version", VInt (max_point_version result));
              ("branch_index", VInt (branch_index result));
              ("disabled", VBool false)] in
           meta <- merge_manifest manifest ["conflicts"; "homepage"] meta;;
           let meta_path := path_join addon_folder "meta.json" in
           write_text lib meta_path (json_dumps_indent2 lib (VDict meta));;
           log "Created meta.json";;
           info ("[OK] AnkiConnect installed: " +:+ path_str addon_folder);;
           ret true)
          [(Exception, fun e =>
             info ("[ERROR] Installation failed: " +:+ exc_str e);;
             ret false)]
    end.

Definition default_config : dict :=
  [("apiKey", VNone);
   ("apiLogPath", VNone);
   ("ignoreOriginList", VList []);
   ("webBindAddress", VStr "0.0.0.0");
   ("webBindPort", VInt 8765);
   ("webCorsOrigin", VStr "http://localhost");
   ("webCorsOriginList", VList [VStr "*"])].

Definition config_path : path := path_join addon_folder "config.json".

(** The "Read existing config if present" block. *)
Definition read_existing_config : M value :=
  present <- path_exists config_path;;
  if present then
    try_except
      (text <- read_text lib config_path;;
       config <- loads_str lib text;;
       log "Loaded existing config";;
       ret config)
      [(JSONDecodeError, fun _ => ret (VDict []))]
  else ret (VDict []).

Definition configure_addon : M bool :=
  present <- path_exists addon_folder;;
  if negb present then
    info ("[ERROR] AnkiConnect not installed at: " +:+ path_str addon_folder);;
    ret false
  else
    info "[*] Configuring AnkiConnect...";;
    config <- read_existing_config;;
    config <- update config default_config;;
    config <- update config (ankiconnect_config self);;
    write_text lib config_path (json_dumps_indent2 lib config);;
    log "Configuration:";;
    address <- getitem config "webBindAddress";;
    log ("  webBindAddress: " +:+ str lib address);;
    port <- getitem config "webBindPort";;
    log ("  webBindPort: " +:+ str lib port);;
    origins <- getitem config "webCorsOriginList";;
    log ("  webCorsOriginList: " +:+ str lib origins);;
    api_key <- get_default config "apiKey" VNone;;
    (if truthy api_key then log ("  apiKey: " +:+ str_repeat "*" 8)
     else ret tt);;
    info ("[OK] AnkiConnect configured: " +:+ path_str config_path);;
    ret true.

(** The loop of [setup_all] over its [(desc, operation)] pairs: [true]
    when every operation succeeded. *)
Fixpoint run_operations (operations : list (string * M bool)) : M bool :=
  match operations with
  | [] => ret true
  | (desc, operation) :: rest =>
      ok <- operation;;
      if negb ok then
        info ("[ERROR] Failed: " +:+ desc);;
        ret false
      else run_operations rest
  end.

Definition setup_all (sync_user sync_key : string)
    (sync_password : option string) (no_sync : bool) : M bool :=
  info (str_repeat "=" 60);;
  info "Anki Docker Setup";;
  info (str_repeat "=" 60);;
  present <- path_exists (prefs_db self);;
  if present then
    info "[OK] Setup already complete, skipping";;
    ret true
  else
    let operations :=
      [("Creating profile",
        create_profile sync_user sync_key sync_password no_sync);
       ("Installing AnkiConnect", install_addon);
       ("Configuring AnkiConnect", configure_addon)] in
    ok <- run_operations operations;;
    if negb ok then ret false
    else
      info (str_repeat "=" 60);;
      info "[OK] Setup completed successfully";;
      info (str_repeat "=" 60);;
      ret true.

End Methods.

(** What [get_env_config] returns. *)
Record env_config : Type := {
  env_sync_user : string;
  env_sync_password : option string;
  env_sync_key : string;
  env_ankiconnect_config : dict
}.

(** [if x: d[key] = f(x)] for an optional environment variable. *)
Definition set_if (x : option string) (key : string)
    (f : string -> option value) (d : dict) : dict :=
  match x with
  | Some text =>
      if truthy (VStr text) then
        match f text with
        | Some v => dict_set d key v
        | None => d
        end
      else d
  | None => d
  end.

Definition get_env_config : env_config :=
  let ankiconnect_config := [] in
  let ankiconnect_config :=
    set_if (getenv lib "ANKICONNECT_BIND_ADDRESS") "webBindAddress"
           (fun x => Some (VStr x)) ankiconnect_config in
  let ankiconnect_config :=
    set_if (getenv lib "ANKICONNECT_BIND_PORT") "webBindPort"
           (fun x => VInt <$> int_of_str lib x) ankiconnect_config in
  let ankiconnect_config :=
    set_if (getenv lib "ANKICONNECT_CORS_ORIGIN") "webCorsOriginList"
           (fun x => match json_loads_str lib x with
                     | Some v => Some v
                     | None => Some (VList [VStr x])
                     end) ankiconnect_config in
  let ankiconnect_config :=
    set_if (getenv lib "ANKICONNECT_API_KEY") "apiKey"
           (fun x => Some (VStr x)) ankiconnect_config in
  let ankiconnect_config :=
    set_if (getenv lib "ANKICONNECT_API_LOG_PATH") "apiLogPath"
           (fun x => Some (VStr x)) ankiconnect_config in
  {| env_sync_user := default "" (getenv lib "ANKIWEB_USER");
     env_sync_password := getenv lib "ANKIWEB_PASSWORD";
     env_sync_key := default "" (getenv lib "ANKIWEB_SYNC_KEY");
     env_ankiconnect_config := ankiconnect_config |}.

(** The [action] argument of the command line. *)
Inductive action : Type :=
  | CreateProfile
  | InstallAddon
  | ConfigureAddon
  | SetupAll.

(** What [parser.parse_args()] returns; an option that is absent from
    the command line is [None]. *)
Record arguments : Type := {
  arg_action : action;
  arg_config_dir : option string;
  arg_sync_user : option string;
  arg_sync_key : option string;
  arg_sync_password : option string;
  arg_no_sync : bool;
  arg_verbose : bool
}.

(** [x or y] for an optional string [x] and a string [y]. *)
Definition or_str (x : option string) (y : string) : string :=
  match x with
  | Some s => if truthy (VStr s) then s else y
  | None => y
  end.

(** [x or y] for two optional strings. *)
Definition or_opt (x y : option string) : option string :=
  match x with
  | Some s => if truthy (VStr s) then Some s else y
  | None => y
  end.

(** [main] from the point where [parser.parse_args()] has returned
    [args]: the value is the exit status passed to [sys.exit].  What
    [argparse] does before is not part of this definition: it ends the
    program itself with status 2 for an action outside the four choices
    or an unknown argument, and with status 0 after printing the help
    text for [--help]. *)
Definition main (args : arguments) : M Z :=
  let config_dir :=
    default (default "/config" (getenv lib "CONFIG_DIR"))
            (arg_config_dir args) in
  let env_config := get_env_config in
  let sync_user := or_str (arg_sync_user args) (env_sync_user env_config) in
  let sync_key := or_str (arg_sync_key args) (env_sync_key env_config) in
  let sync_password :=
    or_opt (arg_sync_password args) (env_sync_password env_config) in
  let setup :=
    init (path_join_name [] config_dir) (arg_verbose args)
         (Some (env_ankiconnect_config env_config)) in
  success <-
    match arg_action args with
    | CreateProfile =>
        create_profile setup sync_user sync_key sync_password
          (arg_no_sync args)
    | InstallAddon => install_addon setup
    | ConfigureAddon => configure_addon setup
    | SetupAll =>
        setup_all setup sync_user sync_key sync_password (arg_no_sync args)
    end;;
  ret (if success : bool then 0 else 1).

End Script.
End setup_anki.

(** ** What the login exchange sends and observes *)
Module Exchange.
Import Python Runtime.

(** The request body and headers both scripts build from the
    credentials. *)
Definition login_body (lib : Lib) (username password : string) : bytes :=
  zstd_compress lib
    (encode_utf8
       (json_dumps lib (VDict [("u", VStr username); ("p", VStr password)]))).

Definition login_headers (lib : Lib) : list (string * string) :=
  [("anki-sync",
    json_dumps lib
      (VDict [("v", VInt 11); ("k", VStr "");
              ("c", VStr "anki,24.11.3 (dev),linux"); ("s", VStr "")]));
   ("Content-Type", "application/octet-stream");
   ("User-Agent", "Anki")].

(** How the service answers the login request. *)
Definition answer (lib : Lib) (username password : string) : http_result :=
  requests_post lib "https://sync21.ankiweb.net/sync/hostKey"
    (login_body lib username password) (login_headers lib) 30.

(** The size limit passed to the single-shot decompressor: 10 MiB. *)
Definition cap : Z := 10 * 1024 * 1024.

(** The one request of a login. *)
Definition login_post (lib : Lib) (username password : string) : event :=
  HttpPost "https://sync21.ankiweb.net/sync/hostKey"
    (login_body lib username password) (login_headers lib) 30.

(** What the scripts obtain from a response body: the output of the
    single-shot decompressor, or of the streaming reader where the
    single-shot decompressor raises [ZstdError]. *)
Definition decoded (lib : Lib) (body : bytes) : option bytes :=
  match zstd_decompress lib body cap with
  | Decompressed out => Some out
  | ZstdFailed _ =>
      match zstd_stream_read lib body with
      | Decompressed out => Some out
      | ZstdFailed _ => None
      end
  end.

(** [v] is what the service issued: the answer has status 200 and its
    body decodes and parses to an object holding [v] under ["key"]. *)
Definition issued (lib : Lib) (username password : string) (v : value)
    : Prop :=
  exists resp out entries,
    answer lib username password = Responded resp /\
    status_code resp = 200 /\
    decoded lib (content resp) = Some out /\
    json_loads lib out = Loaded (VDict entries) /\
    dict_get entries "key" = Some v.

Definition is_network (ev : event) : bool :=
  match ev with
  | HttpPost _ _ _ _ | HttpGet _ _ _ => true
  | _ => false
  end.

Definition is_decoding (ev : event) : bool :=
  match ev with
  | ZstdDecompress _ _ | ZstdStreamRead _ | JsonLoads _ | JsonLoadsStr _ => true
  | _ => false
  end.

Definition is_file_access (ev : event) : bool :=
  match ev with
  | FsExists _ | FsRead _ | FsWrite _ | FsMkdir _
  | SqlExecute _ _ | SqlCommit _ => true
  | _ => false
  end.

(** A step of the exchange proper: the request, a decompression or a
    parse. *)
Definition is_step (ev : event) : bool := is_network ev || is_decoding ev.

(** The lines with which [get_sync_key] reports a failure on the error
    stream, and [get_sync_key_from_server] on the output stream. *)
Definition is_error_line (ev : event) : bool :=
  match ev with
  | Stderr line => str_startswith "Error: " line
  | Stdout line => str_startswith "[ERROR] " line
  | _ => false
  end.

(** The runs of the two exchange functions, from the files [f]. *)
Definition standalone (lib : Lib) (username password : string) (debug : bool)
    (f : gmap path node) : result value * state :=
  run (get_anki_synckey.get_sync_key lib username password debug) f.

Definition embedded (lib : Lib) (self : setup_anki.AnkiSetup)
    (username password : string) (f : gmap path node)
    : result value * state :=
  run (setup_anki.get_sync_key_from_server lib self username password) f.

Definition reported_errors (tr : list event) : list event :=
  List.filter is_error_line tr.

(** The two lines that report an answer without a key. *)
Definition is_no_key_line (ev : event) : bool :=
  match ev with
  | Stderr line =>
      String.eqb line "Error: No 'key' in AnkiWeb response" ||
      String.eqb line "Error: No 'key' in response"
  | Stdout line =>
      String.eqb line "[ERROR] No 'key' in AnkiWeb response" ||
      String.eqb line "[ERROR] No 'key' in response"
  | _ => false
  end.

(** *** The outcomes the specification names

    The scripts have no error type: a failed exchange returns [failure]
    (the empty string in [get_sync_key], [None] in
    [get_sync_key_from_server]) and the kind of failure is the one line
    reported. *)

(** A credential: a non-empty string. *)
Definition credential (v : value) : Prop :=
  exists k, v = VStr k /\ k <> "".

(** The run ended in an error: [failure] is returned and exactly one
    error is reported. *)
Definition failed (failure : value) (r : result value * state) : Prop :=
  r.1 = Ret failure /\ length (reported_errors (trace r.2)) = 1%nat.

(** The run ended in the error "accepted, but no credential issued". *)
Definition protocol_error (failure : value) (r : result value * state)
    : Prop :=
  r.1 = Ret failure /\
  exists line, reported_errors (trace r.2) = [line] /\
               is_no_key_line line = true.

(** The run produced the value [v] and reported no error. *)
Definition produced (v : value) (r : result value * state) : Prop :=
  r.1 = Ret v /\ reported_errors (trace r.2) = [].

(** "Exactly one of a credential string and one error". *)
Definition one_outcome (failure : value) (r : result value * state) : Prop :=
  (exists v, credential v /\ produced v r) \/ failed failure r.

(** "A credential if and only if the object holds a non-empty string
    under [key], which is then returned; otherwise a protocol error". *)
Definition key_rule (failure : value) (entries : dict)
    (r : result value * state) : Prop :=
  match dict_get entries "key" with
  | Some (VStr k) =>
      if String.eqb k "" then protocol_error failure r
      else produced (VStr k) r
  | _ => protocol_error failure r
  end.

(** The dict [configure_addon] starts from, given the text of an
    existing [config.json]: the object the text holds, and the empty dict
    for text that is not JSON; JSON of another type gives none. *)
Definition existing_config (lib : Lib) (text : string) : option dict :=
  match json_loads_str lib text with
  | Some (VDict entries) => Some entries
  | Some _ => None
  | None => Some []
  end.

(** "Keys outside the defaults are preserved from the existing file":
    what [configure_addon] would have to do to the dict [existing] of
    the file for that, [final] being the dict it writes. *)
Definition preserves_other_keys (existing final : dict) : Prop :=
  forall k, dict_get setup_anki.default_config k = None ->
            dict_get final k = dict_get existing k.

(** What every run of an exchange function with the failure value
    [failure] does. *)
Definition exchange_run (lib : Lib) (username password : string)
    (failure : value) (f : gmap path node) (r : result value * state) : Prop :=
  fs r.2 = f /\
  List.filter is_network (trace r.2) = [login_post lib username password] /\
  List.filter is_file_access (trace r.2) = [] /\
  (failed failure r \/
   exists v, produced v r /\ issued lib username password v).

(** The streaming reader runs only on a body that the single-shot
    decompressor was given before and could not decompress. *)
Definition reader_after_failure (lib : Lib) (tr : list event) : Prop :=
  forall body, In (ZstdStreamRead body) tr ->
    In (ZstdDecompress body cap) tr /\
    exists msg, zstd_decompress lib body cap = ZstdFailed msg.

End Exchange.

(** ** A small library instance

    A [Lib] that computes, to run the scripts on concrete exchanges: a
    JSON reader and writer for the fragment without escapes and floats, a
    stand-in for zstd that marks each frame with one octet, and a service
    that gives a fixed answer. *)
Module Demo.
Import Python Runtime.

Definition quote : ascii := "034"%char.

Definition quoted (s : string) : string := String quote (s +:+ String quote "").

(** UTF-8 restricted to the code points below U+0100. *)
Fixpoint decode_utf8 (b : bytes) : option string :=
  match b with
  | [] => Some ""
  | x :: rest =>
      let n := Byte.to_N x in
      if (n <? 128)%N then String (ascii_of_N n) <$> decode_utf8 rest
      else if (n =? 194)%N || (n =? 195)%N then
        match rest with
        | y :: rest' =>
            let m := Byte.to_N y in
            if (128 <=? m)%N && (m <? 192)%N then
              String (ascii_of_N ((n - 192) * 64 + (m - 128))) <$>
                decode_utf8 rest'
            else None
        | [] => None
        end
      else None
  end.

Definition is_space (c : ascii) : bool :=
  Ascii.eqb c " " || Ascii.eqb c "009" || Ascii.eqb c "010" || Ascii.eqb c "013".

Definition is_digit (c : ascii) : bool :=
  let n := nat_of_ascii c in (48 <=? n)%nat && (n <=? 57)%nat.

Fixpoint skip_space (s : string) : string :=
  match s with
  | String c rest => if is_space c then skip_space rest else s
  | EmptyString => EmptyString
  end.

(** The characters up to the closing quote, and what follows it. *)
Fixpoint scan_string (acc s : string) : option (string * string) :=
  match s with
  | EmptyString => None
  | String c rest =>
      if Ascii.eqb c quote then Some (String.rev acc, rest)
      else scan_string (String c acc) rest
  end.

Fixpoint scan_digits (acc : Z) (s : string) : Z * string :=
  match s with
  | String c rest =>
      if is_digit c then
        scan_digits (10 * acc + Z.of_nat (nat_of_ascii c - 48)) rest
      else (acc, s)
  | EmptyString => (acc, s)
  end.

Fixpoint parse_value (fuel : nat) (s : string) : option (value * string) :=
  match fuel with
  | O => None
  | S fuel' =>
      match skip_space s with
      | EmptyString => None
      | String c rest =>
          if Ascii.eqb c "{" then
            match skip_space rest with
            | String "}" rest' => Some (VDict [], rest')
            | _ => parse_members fuel' [] rest
            end
          else if Ascii.eqb c "[" then
            match skip_space rest with
            | String "]" rest' => Some (VList [], rest')
            | _ => parse_items fuel' [] rest
            end
          else if Ascii.eqb c quote then
            match scan_string "" rest with
            | Some (text, rest') => Some (VStr text, rest')
            | None => None
            end
          else if Ascii.eqb c "-" then
            match rest with
            | String d _ =>
                if is_digit d then
                  let (n, rest') := scan_digits 0 rest in Some (VInt (- n), rest')
                else None
            | EmptyString => None
            end
          else if is_digit c then
            let (n, rest') := scan_digits 0 (String c rest) in
            Some (VInt n, rest')
          else if str_startswith "true" (String c rest) then
            Some (VBool true, str_drop 4 (String c rest))
          else if str_startswith "false" (String c rest) then
            Some (VBool false, str_drop 5 (String c rest))
          else if str_startswith "null" (String c rest) then
            Some (VNone, str_drop 4 (String c rest))
          else None
      end
  end
with parse_members (fuel : nat) (acc : dict) (s : string)
    : option (value * string) :=
  match fuel with
  | O => None
  | S fuel' =>
      match skip_space s with
      | String c rest =>
          if Ascii.eqb c quote then
            match scan_string "" rest with
            | Some (key, rest1) =>
                match skip_space rest1 with
                | String ":" rest2 =>
                    match parse_value fuel' rest2 with
                    | Some (v, rest3) =>
                        match skip_space rest3 with
                        | String "," rest4 =>
                            parse_members fuel' (dict_set acc key v) rest4
                        | String "}" rest4 =>
                            Some (VDict (dict_set acc key v), rest4)
                        | _ => None
                        end
                    | None => None
                    end
                | _ => None
                end
            | None => None
            end
          else None
      | EmptyString => None
      end
  end
with parse_items (fuel : nat) (acc : list value) (s : string)
    : option (value * string) :=
  match fuel with
  | O => None
  | S fuel' =>
      match parse_value fuel' s with
      | Some (v, rest) =>
          match skip_space rest with
          | String "," rest' => parse_items fuel' (acc ++ [v]) rest'
          | String "]" rest' => Some (VList (acc ++ [v]), rest')
          | _ => None
          end
      | None => None
      end
  end.

(** A document is one value, with white space around it. *)
Definition parse_document (text : string) : option value :=
  match parse_value (S (String.length text)) text with
  | Some (v, rest) =>
      match skip_space rest with
      | EmptyString => Some v
      | _ => None
      end
  | None => None
  end.

(** Trailing white space of the octets is dropped before decoding. *)
Definition is_space_byte (x : Byte.byte) : bool :=
  is_space (ascii_of_N (Byte.to_N x)).

Fixpoint drop_spaces (b : bytes) : bytes :=
  match b with
  | x :: rest => if is_space_byte x then drop_spaces rest else b
  | [] => []
  end.

Definition rstrip (b : bytes) : bytes := reverse (drop_spaces (reverse b)).

Definition loads (b : bytes) : loads_result :=
  match decode_utf8 (rstrip b) with
  | None => NotText "'utf-8' codec can't decode bytes"
  | Some text =>
      match parse_document text with
      | Some v => Loaded v
      | None => NotJson "Expecting value"
      end
  end.

Fixpoint escape (s : string) : string :=
  match s with
  | EmptyString => EmptyString
  | String c rest =>
      if Ascii.eqb c quote || Ascii.eqb c "\"
      then String "\" (String c (escape rest))
      else String c (escape rest)
  end.

Fixpoint dumps (v : value) : string :=
  match v with
  | VNone => "null"
  | VBool true => "true"
  | VBool false => "false"
  | VInt n => pretty n
  | VFloat _ => "NaN"
  | VStr s => quoted (escape s)
  | VList items =>
      "[" +:+
      (fix go (l : list value) : string :=
         match l with
         | [] => ""
         | x :: l' =>
             dumps x +:+ match l' with [] => "" | _ => ", " +:+ go l' end
         end) items +:+ "]"
  | VDict entries =>
      "{" +:+
      (fix go (l : list (string * value)) : string :=
         match l with
         | [] => ""
         | (k, x) :: l' =>
             quoted (escape k) +:+ ": " +:+ dumps x +:+
             match l' with [] => "" | _ => ", " +:+ go l' end
         end) entries +:+ "}"
  end.

(** Frames: [x01] starts a frame that records the size of its content,
    [x02] one that does not, so that the single-shot decompressor has only
    [max_output_size] octets for it, and [x03] one that only the
    streaming reader accepts.  The content follows as it is. *)
Definition compress (data : bytes) : bytes := Byte.x01 :: data.

Definition decompress (data : bytes) (max_output_size : Z) : zstd_result :=
  match data with
  | Byte.x01 :: out => Decompressed out
  | Byte.x02 :: out =>
      if Z.of_nat (length out) <=? max_output_size then Decompressed out
      else ZstdFailed "decompression error: did not decompress full frame"
  | _ => ZstdFailed "decompression error: Unknown frame descriptor"
  end.

Definition stream_read (data : bytes) : zstd_result :=
  match data with
  | Byte.x01 :: out | Byte.x02 :: out | Byte.x03 :: out => Decompressed out
  | _ => ZstdFailed "zstd decompress error: Unknown frame descriptor"
  end.

(** The library, with a service that answers every request with
    [reply]. *)
Definition lib (reply : http_result) : Lib :=
  {| json_dumps := dumps;
     json_dumps_indent2 := dumps;
     json_loads := loads;
     json_loads_str := parse_document;
     zstd_compress := compress;
     zstd_decompress := decompress;
     zstd_stream_read := stream_read;
     requests_post := fun _ _ _ _ => reply;
     requests_get := fun _ _ _ => reply;
     pickle_dumps := fun v => encode_utf8 (dumps v);
     repr_value := dumps;
     getenv := fun _ => None;
     text_encode := fun text => Some (encode_utf8 text);
     text_decode := decode_utf8;
     zip_members := fun _ => None;
     url_query := fun _ => [];
     int_of_str := fun _ => None |}.

(** An answer with status [status] and body [body]. *)
Definition reply (status : Z) (body : bytes) : http_result :=
  Responded {| status_code := status; content := body; headers := [];
               url := "https://sync21.ankiweb.net/sync/hostKey" |}.

(** The JSON object with the single member [key]. *)
Definition key_object (v : string) : string :=
  "{" +:+ quoted "key" +:+ ": " +:+ v +:+ "}".

(** *** Exchanges to run *)

(** The object of the round trip, in a single-shot frame. *)
Definition round_trip_reply : http_result :=
  reply 200 (compress (encode_utf8 (key_object (quoted "ABCD1234EFGH5678")))).

(** The same object in a frame for the streaming reader only. *)
Definition streamed_reply : http_result :=
  reply 200 (Byte.x03 :: encode_utf8 (key_object (quoted "ABCD1234EFGH5678"))).

Definition forbidden_reply : http_result := reply 403 [].

(** Objects whose [key] is not a string. *)
Definition number_key_reply : http_result :=
  reply 200 (compress (encode_utf8 (key_object "123"))).

Definition list_key_reply : http_result :=
  reply 200 (compress (encode_utf8 (key_object ("[" +:+ quoted "x" +:+ "]")))).

(** An object followed by ten MiB of blanks, in a frame that does not
    record its size. *)
Definition padding : nat := Z.to_nat (10 * 1024 * 1024).

Definition oversized_body : bytes :=
  encode_utf8 (key_object (quoted "ABCD1234EFGH5678")) ++
  replicate padding Byte.x20.

Definition oversized_reply : http_result :=
  reply 200 (Byte.x02 :: oversized_body).

(** *** File systems to run on *)

Definition demo_setup : setup_anki.AnkiSetup :=
  setup_anki.init ["" ; "config"] false None.

(** A set-up whose caller sets a key that is not one of the defaults. *)
Definition custom_setup : setup_anki.AnkiSetup :=
  setup_anki.init ["" ; "config"] false (Some [("extra", VInt 2)]).

(** The profile database is there. *)
Definition provisioned : gmap path node :=
  {[ setup_anki.prefs_db demo_setup :=
       Database [CreateProfilesTable; InsertProfile "user" []] ]}.

(** The add-on is installed, with a [config.json] that sets [extra]. *)
Definition extra_object : string := "{" +:+ quoted "extra" +:+ ": 1}".

Definition installed : gmap path node :=
  {[ setup_anki.addon_folder custom_setup := Directory;
     setup_anki.config_path custom_setup := File (encode_utf8 extra_object) ]}.

(** A set-up whose caller binds the add-on to the local address and
    sets a key that is not one of the defaults. *)
Definition local_setup : setup_anki.AnkiSetup :=
  setup_anki.init ["" ; "config"] false
    (Some [("webBindAddress", VStr "127.0.0.1"); ("extra", VInt 2)]).

(** The add-on is installed, with a [config.json] that customises two
    of the default keys and sets two others. *)
Definition customised_object : string :=
  "{" +:+ quoted "webBindAddress" +:+ ": " +:+ quoted "127.0.0.1" +:+ ", " +:+
  quoted "webBindPort" +:+ ": 9999, " +:+
  quoted "extra" +:+ ": 1, " +:+
  quoted "other" +:+ ": true}".

Definition customised_config : dict :=
  [("webBindAddress", VStr "127.0.0.1"); ("webBindPort", VInt 9999);
   ("extra", VInt 1); ("other", VBool true)].

Definition customised : gmap path node :=
  {[ setup_anki.addon_folder local_setup := Directory;
     setup_anki.config_path local_setup :=
       File (encode_utf8 customised_object) ]}.

End Demo.

(** ** Further observables and exchanges *)
Module Cases.
Import Python Runtime.

Definition is_stdout (ev : event) : bool :=
  match ev with Stdout _ => true | _ => false end.

Definition is_console (ev : event) : bool :=
  match ev with Stdout _ | Stderr _ => true | _ => false end.

(** An error line of [get_sync_key] on the error stream. *)
Definition is_stderr_error (ev : event) : bool :=
  match ev with Stderr line => str_startswith "Error: " line | _ => false end.

Definition is_parse (ev : event) : bool :=
  match ev with JsonLoads _ | JsonLoadsStr _ => true | _ => false end.

(** The service does not answer in time. *)
Definition timed_out : Lib :=
  Demo.lib (HttpRaised (Exc Timeout "Read timed out. (read timeout=30)")).

(** Answers with status 200: text that is not JSON, octets that are no
    frame, a JSON array, and an object with an empty key. *)
Definition garbled : Lib :=
  Demo.lib (Demo.reply 200 (Demo.compress (encode_utf8 "<html>busy</html>"))).

Definition unframed : Lib := Demo.lib (Demo.reply 200 [Byte.x00; Byte.x01]).

Definition array_answer : Lib :=
  Demo.lib (Demo.reply 200 (Demo.compress (encode_utf8 "[1, 2]"))).

Definition empty_key : Lib :=
  Demo.lib
    (Demo.reply 200
       (Demo.compress (encode_utf8 (Demo.key_object (Demo.quoted ""))))).

(** The service accepts the request and issues no key. *)
Definition refusal : string :=
  "{" +:+ Demo.quoted "msg" +:+ ": " +:+ Demo.quoted "invalid credentials" +:+
  "}".

Definition refused : Lib :=
  Demo.lib (Demo.reply 200 (Demo.compress (encode_utf8 refusal))).

(** *** Provisioning *)

(** The URL [download_addon] requests for an add-on. *)
Definition download_url (addon_id : Z) : string :=
  "https://ankiweb.net/shared/download/" +:+ pretty addon_id +:+
  "?v=2.1&p=241103".

(** The manifest of an archive: the last member named manifest.json. *)
Definition manifest_of (members : list (string * bytes)) : option bytes :=
  snd <$> find (fun kv => String.eqb kv.1 "manifest.json") (reverse members).

(** A service whose download ends at a URL with the query [t=soon]. *)
Definition redirected : Lib :=
  let base := Demo.lib (Demo.reply 200 []) in
  {| json_dumps := json_dumps base;
     json_dumps_indent2 := json_dumps_indent2 base;
     json_loads := json_loads base;
     json_loads_str := json_loads_str base;
     zstd_compress := zstd_compress base;
     zstd_decompress := zstd_decompress base;
     zstd_stream_read := zstd_stream_read base;
     requests_post := requests_post base;
     requests_get := requests_get base;
     pickle_dumps := pickle_dumps base;
     repr_value := repr_value base;
     getenv := getenv base;
     text_encode := text_encode base;
     text_decode := text_decode base;
     zip_members := zip_members base;
     url_query := fun _ => [("t", ["soon"])];
     int_of_str := int_of_str base |}.

(** An event that is the creation of a directory. *)
Definition is_mkdir (ev : event) : bool :=
  match ev with FsMkdir _ => true | _ => false end.

(** Nothing but directories stands where [mkdir(parents=True)] goes from
    [done] through the names [todo]. *)
Definition clear_way (f : gmap path node) (done : path)
    (todo : list string) : Prop :=
  forall k, (0 < k <= length todo)%nat ->
    f !! (done ++ take k todo) = None \/
    f !! (done ++ take k todo) = Some Directory.

(** [create_profile] has to fetch the key: none is given, a password and
    a user are, and sync is wanted. *)
Definition asks_for_key (sync_user sync_key : string)
    (sync_password : option string) (no_sync : bool) : bool :=
  negb (truthy (VStr sync_key)) && setup_anki.truthy_opt sync_password &&
  negb no_sync && truthy (VStr sync_user).

(** An environment that sets a port that is no number and an origin that
    is no JSON. *)
Definition exported : Lib :=
  let base := Demo.lib Demo.forbidden_reply in
  {| json_dumps := json_dumps base;
     json_dumps_indent2 := json_dumps_indent2 base;
     json_loads := json_loads base;
     json_loads_str := json_loads_str base;
     zstd_compress := zstd_compress base;
     zstd_decompress := zstd_decompress base;
     zstd_stream_read := zstd_stream_read base;
     requests_post := requests_post base;
     requests_get := requests_get base;
     pickle_dumps := pickle_dumps base;
     repr_value := repr_value base;
     getenv := fun name =>
       if String.eqb name "ANKICONNECT_BIND_PORT" then Some "http"
       else if String.eqb name "ANKICONNECT_CORS_ORIGIN" then Some "*"
       else if String.eqb name "ANKIWEB_SYNC_KEY" then Some "0123abcd"
       else if String.eqb name "ANKIWEB_PASSWORD" then Some "secret"
       else None;
     text_encode := text_encode base;
     text_decode := text_decode base;
     zip_members := zip_members base;
     url_query := url_query base;
     int_of_str := int_of_str base |}.

(** The add-on folder alone, and with a [config.json] holding a list. *)
Definition unconfigured : gmap path node :=
  {[ setup_anki.addon_folder Demo.custom_setup := Directory ]}.

Definition list_config : gmap path node :=
  {[ setup_anki.addon_folder Demo.custom_setup := Directory;
     setup_anki.config_path Demo.custom_setup := File (encode_utf8 "[1, 2]") ]}.

(** The add-on folder with a [config.json] whose octets are no text. *)
Definition binary_config : gmap path node :=
  {[ setup_anki.addon_folder Demo.custom_setup := Directory;
     setup_anki.config_path Demo.custom_setup := File [Byte.xff] ]}.

End Cases.

(** ** Reasoning about runs *)
Module Logic.
Import Python Runtime.

Lemma wp_run {A} (m : M A) Q f :
  wp m Q f [] -> Q (run m f).1 (fs (run m f).2) (trace (run m f).2).
Proof. exact id. Qed.

Lemma wp_ret {A} (a : A) Q f tr : Q (Ret a) f tr -> wp (ret a) Q f tr.
Proof. exact id. Qed.

Lemma wp_raise {A} e (Q : result A -> _ -> _ -> Prop) f tr :
  Q (Raise e) f tr -> wp (raise e) Q f tr.
Proof. exact id. Qed.

Lemma wp_emit ev Q f tr : Q (Ret tt) f (tr ++ [ev]) -> wp (emit ev) Q f tr.
Proof. exact id. Qed.

Lemma wp_get_fs Q f tr : Q (Ret f) f tr -> wp get_fs Q f tr.
Proof. exact id. Qed.

Lemma wp_put_fs f' Q f tr : Q (Ret tt) f' tr -> wp (put_fs f') Q f tr.
Proof. exact id. Qed.

Lemma wp_bind {A B} (m : M A) (k : A -> M B) Q f tr :
  wp m (fun r f' tr' => match r with
                        | Ret a => wp (k a) Q f' tr'
                        | Raise e => Q (Raise e) f' tr'
                        end) f tr ->
  wp (bind m k) Q f tr.
Proof.
  unfold wp, bind. destruct (m (State f tr)) as [[a|e] [f' tr']]; auto.
Qed.

Lemma wp_try {A} (m : M A) clauses Q f tr :
  wp m (fun r f' tr' => match r with
                        | Ret a => Q (Ret a) f' tr'
                        | Raise e => wp (dispatch clauses e) Q f' tr'
                        end) f tr ->
  wp (try_except m clauses) Q f tr.
Proof.
  unfold wp, try_except. destruct (m (State f tr)) as [[a|e] [f' tr']]; auto.
Qed.

Lemma wp_mono {A} (m : M A) (Q Q' : result A -> _ -> _ -> Prop) f tr :
  (forall r f' tr', Q r f' tr' -> Q' r f' tr') -> wp m Q f tr -> wp m Q' f tr.
Proof. unfold wp. auto. Qed.

Ltac head_of t := lazymatch t with ?f _ => head_of f | _ => t end.

(** A test that computes. *)
Ltac wp_eval_bool b :=
  let v := eval vm_compute in b in
  lazymatch v with
  | true => change b with true
  | false => change b with false
  end.

(** A scrutinee that computes to a constructor. *)
Ltac wp_eval_head x :=
  let v := eval hnf in x in
  let h := head_of v in
  is_constructor h; progress change x with v.

(** A test or scrutinee whose value a hypothesis gives. *)
Ltac wp_known x :=
  match goal with
  | H : ?y = ?v |- _ => unify x y; rewrite (H : x = v)
  | H : ?y = ?v |- _ =>
      match x with context [y] => rewrite H end;
      try (let b := match goal with
                    | |- wp (if ?b then _ else _) _ _ _ => b
                    end in
           let v := eval vm_compute in b in
           match v with true => idtac | false => idtac end;
           change b with v)
  end.

(** One step of symbolic execution on the computation in the goal. *)
Ltac wp_head m :=
  lazymatch m with
  | bind _ _ => apply wp_bind
  | ret _ => apply wp_ret
  | raise _ => apply wp_raise
  | emit _ => apply wp_emit
  | get_fs => apply wp_get_fs
  | put_fs _ => apply wp_put_fs
  | try_except _ _ => apply wp_try
  | dispatch _ _ => cbn [dispatch]
  | (if isinstance (Exc ?c ?msg) ?d then _ else _) =>
      first
        [ is_constructor c;
          let v := eval vm_compute in (issubclass c d) in
          change (isinstance (Exc c msg) d) with v
        | destruct c ]
  | (if isinstance ?e _ then _ else _) => destruct e as [[] ?]
  | (if ?b then _ else _) =>
      first [wp_eval_bool b | wp_known b | destruct b eqn:?]
  | (match ?x with _ => _ end) =>
      first [wp_eval_head x | wp_known x | destruct x eqn:?]
  | (let x := _ in _) => cbv zeta
  | _ => let h := head_of m in unfold h
  end.

Ltac wp_step :=
  lazymatch goal with
  | |- wp ?m _ _ _ => wp_head m
  end; cbv beta iota.

Ltac wp_go := repeat wp_step.

(** *** Facts about the builtins *)

Lemma str_split_go_cons sep cur s :
  exists x l, str_split_go sep cur s = x :: l.
Proof.
  revert cur. induction s as [|c s IH]; intros cur; simpl; [by eauto|].
  destruct (Ascii.eqb c sep); eauto.
Qed.

Lemma str_split_go_two sep cur s :
  str_contains (String sep "") s = true ->
  exists a b l, str_split_go sep cur s = a :: b :: l.
Proof.
  revert cur. induction s as [|c s IH]; intros cur H; simpl in *; [done|].
  destruct (Ascii.eqb_spec c sep) as [->|Hne].
  - destruct (str_split_go_cons sep "" s) as (x & l & ->). eauto.
  - destruct (Ascii.eqb_spec sep c) as [->|_]; [done|]. simpl in H. eauto.
Qed.

(** Splitting at a character that occurs gives at least two parts. *)
Lemma str_split_two sep s :
  str_contains (String sep "") s = true ->
  exists a b l, str_split sep s = a :: b :: l.
Proof. apply str_split_go_two. Qed.

Lemma status_ok n : negb (n =? 200) = false -> n = 200.
Proof. intros H. apply negb_false_iff in H. lia. Qed.

End Logic.

(** ** The login exchange: every run *)
Module Facts.
Import Python Runtime Exchange Logic.

(** The sanitising of the user name cannot fail: [@] occurs in it. *)
Ltac absurd_index :=
  match goal with
  | H : str_contains _ ?u && _ = true, Hi : str_split _ ?u !! _ = None |- _ =>
      exfalso; apply andb_true_iff in H as [H _];
      apply str_split_two in H as (? & ? & ? & H);
      rewrite H in Hi; discriminate Hi
  end.

Ltac show_issued :=
  match goal with
  | Hp : requests_post _ _ _ _ _ = Responded ?r,
    Hs : negb (status_code ?r =? 200) = false,
    Hj : json_loads _ ?out = Loaded (VDict ?entries),
    Hk : dict_get ?entries "key" = Some _ |- issued _ _ _ _ =>
      exists r, out, entries;
      split; [exact Hp|]; split; [exact (status_ok _ Hs)|];
      split; [|split; [exact Hj|exact Hk]];
      unfold decoded, cap;
      repeat match goal with
             | Hz : zstd_decompress _ _ _ = _ |- _ => rewrite Hz; clear Hz
             | Hz : zstd_stream_read _ _ = _ |- _ => rewrite Hz; clear Hz
             end; reflexivity
  end.

Ltac finish :=
  first
    [ absurd_index
    | split; [reflexivity|split; [reflexivity|split; [reflexivity|]]];
      first
        [ left; split; reflexivity
        | right; eexists; split; [split; reflexivity|show_issued] ] ].

Lemma exchange_run_wp {A} (m : M A) Q f :
  wp m (fun r f' tr => Q (r, State f' tr)) f [] -> Q (run m f).
Proof. unfold wp, run. destruct (m _) as [r [f' tr]]. exact id. Qed.

Lemma get_sync_key_run lib username password debug f :
  exchange_run lib username password (VStr "") f
    (run (get_anki_synckey.get_sync_key lib username password debug) f).
Proof.
  apply exchange_run_wp.
  unfold exchange_run, failed, produced, reported_errors. cbn [fst snd fs trace].
  wp_go; finish.
Qed.

Lemma get_sync_key_from_server_run lib self username password f :
  exchange_run lib username password VNone f
    (run (setup_anki.get_sync_key_from_server lib self username password) f).
Proof.
  apply exchange_run_wp.
  unfold exchange_run, failed, produced, reported_errors. cbn [fst snd fs trace].
  wp_go; finish.
Qed.

End Facts.

(** ** The login exchange: the properties *)
Import Python Runtime Exchange Logic Facts.

(** C7. The one request either function sends is a POST to the key
    endpoint whose body is the compressed UTF-8 JSON text of the object
    with the two members [u] and [p], whose [anki-sync] header is the JSON
    text of the object with the members [v] = 11, [k] = "", [c] = the
    client identifier and [s] = "", whose content type is
    [application/octet-stream], whose user agent is [Anki], and whose
    timeout is 30 seconds. *)
Theorem login_request_shape lib self username password debug f :
  let request :=
    HttpPost "https://sync21.ankiweb.net/sync/hostKey"
      (zstd_compress lib
         (encode_utf8
            (json_dumps lib
               (VDict [("u", VStr username); ("p", VStr password)]))))
      [("anki-sync",
        json_dumps lib
          (VDict [("v", VInt 11); ("k", VStr "");
                  ("c", VStr "anki,24.11.3 (dev),linux"); ("s", VStr "")]));
       ("Content-Type", "application/octet-stream");
       ("User-Agent", "Anki")]
      30 in
  List.filter is_network (trace (standalone lib username password debug f).2) = [request] /\
  List.filter is_network (trace (embedded lib self username password f).2) = [request].
Proof.
  intros request. split.
  - apply (get_sync_key_run lib username password debug f).
  - apply (get_sync_key_from_server_run lib self username password f).
Qed.


(** X17. Every run of either function returns a value and raises
    nothing; either it returns the failure value (the empty string,
    respectively [None]) after reporting exactly one error, or it reports
    no error and returns what the object of a 200 answer holds under
    [key], unchecked; never both. *)
Theorem failure_or_issued_value lib self username password debug f :
  ((failed (VStr "") (standalone lib username password debug f) \/
    exists v, produced v (standalone lib username password debug f) /\ issued lib username password v) /\
   ~ (failed (VStr "") (standalone lib username password debug f) /\ exists v, produced v (standalone lib username password debug f))) /\
  ((failed VNone (embedded lib self username password f) \/
    exists v, produced v (embedded lib self username password f) /\ issued lib username password v) /\
   ~ (failed VNone (embedded lib self username password f) /\ exists v, produced v (embedded lib self username password f))).
Proof.
  destruct (get_sync_key_run lib username password debug f)
    as (_ & _ & _ & H1).
  destruct (get_sync_key_from_server_run lib self username password f)
    as (_ & _ & _ & H2).
  unfold standalone, embedded.
  split; (split; [assumption|]).
  - intros [[_ Hone] [v [_ Hnone]]]. rewrite Hnone in Hone. discriminate.
  - intros [[_ Hone] [v [_ Hnone]]]. rewrite Hnone in Hone. discriminate.
Qed.

(** A run along a path that the hypotheses fix. *)
Ltac run_along :=
  apply exchange_run_wp; cbn [fst snd fs trace];
  wp_go; first [absurd_index | repeat split; reflexivity].

(** C3. When the answer has status 200 and a body that the single-shot
    decompressor turns into the JSON text of the object with the one
    member [key] = [k], as for [k] = ["ABCD1234EFGH5678"], both functions
    return [k] and report no error, having sent the login request,
    decompressed the body of the answer in one shot under the cap and
    parsed the output, in this order and nothing else. *)
Theorem single_shot_round_trip lib self username password debug f resp out k :
  answer lib username password = Responded resp ->
  status_code resp = 200 ->
  zstd_decompress lib (content resp) cap = Decompressed out ->
  json_loads lib out = Loaded (VDict [("key", VStr k)]) ->
  (produced (VStr k) (standalone lib username password debug f) /\
   List.filter is_step (trace (standalone lib username password debug f).2) =
     [login_post lib username password;
      ZstdDecompress (content resp) cap; JsonLoads out]) /\
  (produced (VStr k) (embedded lib self username password f) /\
   List.filter is_step (trace (embedded lib self username password f).2) =
     [login_post lib username password;
      ZstdDecompress (content resp) cap; JsonLoads out]).
Proof.
  intros Hanswer Hstatus Hzstd Hjson.
  unfold produced, reported_errors, standalone, embedded.
  split; run_along.
Qed.

Lemma single_shot_round_trip_witness :
  let body :=
    Demo.compress
      (encode_utf8 (Demo.key_object (Demo.quoted "ABCD1234EFGH5678"))) in
  let steps :=
    [login_post (Demo.lib Demo.round_trip_reply) "user@example.com" "secret";
     ZstdDecompress body cap;
     JsonLoads
       (encode_utf8 (Demo.key_object (Demo.quoted "ABCD1234EFGH5678")))] in
  (produced (VStr "ABCD1234EFGH5678")
     (standalone (Demo.lib Demo.round_trip_reply) "user@example.com" "secret"
        true ∅) /\
   List.filter is_step
     (trace (standalone (Demo.lib Demo.round_trip_reply) "user@example.com"
               "secret" true ∅).2) = steps) /\
  (produced (VStr "ABCD1234EFGH5678")
     (embedded (Demo.lib Demo.round_trip_reply)
        (setup_anki.init ["" ; "config"] true None) "user@example.com"
        "secret" ∅) /\
   List.filter is_step
     (trace (embedded (Demo.lib Demo.round_trip_reply)
               (setup_anki.init ["" ; "config"] true None) "user@example.com"
               "secret" ∅).2) = steps).
Proof.
  eapply (single_shot_round_trip (Demo.lib Demo.round_trip_reply)
            (setup_anki.init ["" ; "config"] true None) "user@example.com"
            "secret" true ∅
            {| status_code := 200;
               content :=
                 Demo.compress
                   (encode_utf8
                      (Demo.key_object (Demo.quoted "ABCD1234EFGH5678")));
               headers := [];
               url := "https://sync21.ankiweb.net/sync/hostKey" |}).
  - reflexivity.
  - reflexivity.
  - reflexivity.
  - vm_compute. reflexivity.
Defined.

(** C5. When the answer has a status other than 200, both functions
    return their failure value, the one error they report names the
    status, and the body is neither decompressed nor parsed. *)
Theorem rejected_status lib self username password debug f resp :
  answer lib username password = Responded resp ->
  status_code resp <> 200 ->
  ((standalone lib username password debug f).1 = Ret (VStr "") /\
   reported_errors (trace (standalone lib username password debug f).2) =
     [Stderr ("Error: HTTP " +:+ pretty (status_code resp) +:+
              " from AnkiWeb")] /\
   List.filter is_decoding
     (trace (standalone lib username password debug f).2) = []) /\
  ((embedded lib self username password f).1 = Ret VNone /\
   reported_errors (trace (embedded lib self username password f).2) =
     [Stdout ("[ERROR] HTTP " +:+ pretty (status_code resp) +:+
              " from AnkiWeb")] /\
   List.filter is_decoding
     (trace (embedded lib self username password f).2) = []).
Proof.
  intros Hanswer Hstatus.
  assert (Hne : negb (status_code resp =? 200) = true).
  { apply negb_true_iff. lia. }
  unfold reported_errors, standalone, embedded.
  split; run_along.
Qed.

Lemma rejected_status_witness :
  ((standalone (Demo.lib Demo.forbidden_reply) "user" "secret" false ∅).1
     = Ret (VStr "") /\
   reported_errors
     (trace (standalone (Demo.lib Demo.forbidden_reply) "user" "secret"
               false ∅).2) =
     [Stderr "Error: HTTP 403 from AnkiWeb"] /\
   List.filter is_decoding
     (trace (standalone (Demo.lib Demo.forbidden_reply) "user" "secret"
               false ∅).2) = []) /\
  ((embedded (Demo.lib Demo.forbidden_reply)
      (setup_anki.init ["" ; "config"] false None) "user" "secret" ∅).1
     = Ret VNone /\
   reported_errors
     (trace (embedded (Demo.lib Demo.forbidden_reply)
               (setup_anki.init ["" ; "config"] false None) "user" "secret"
               ∅).2) =
     [Stdout "[ERROR] HTTP 403 from AnkiWeb"] /\
   List.filter is_decoding
     (trace (embedded (Demo.lib Demo.forbidden_reply)
               (setup_anki.init ["" ; "config"] false None) "user" "secret"
               ∅).2) = []).
Proof.
  apply (rejected_status (Demo.lib Demo.forbidden_reply)
           (setup_anki.init ["" ; "config"] false None) "user" "secret"
           false ∅
           {| status_code := 403; content := []; headers := [];
              url := "https://sync21.ankiweb.net/sync/hostKey" |}).
  - reflexivity.
  - vm_compute. discriminate.
Defined.

Ltac check_reader :=
  first
    [ absurd_index
    | let Hin := fresh "Hin" in
      intros ? Hin; cbn [app In] in Hin;
      repeat (destruct Hin as [Hin|Hin]; [try discriminate Hin|]);
      [injection Hin as <-;
       split; [cbn [app In]; unfold cap; tauto|eexists; eassumption]
      | contradiction ]
    | let Hin := fresh "Hin" in
      intros ? Hin; cbn [app In] in Hin;
      repeat (destruct Hin as [Hin|Hin]; [discriminate Hin|]);
      contradiction ].

Lemma standalone_reader lib username password debug f :
  reader_after_failure lib
    (trace (standalone lib username password debug f).2).
Proof.
  unfold standalone. apply exchange_run_wp. cbn [fst snd fs trace].
  unfold reader_after_failure.
  wp_go; check_reader.
Qed.

Lemma embedded_reader lib self username password f :
  reader_after_failure lib (trace (embedded lib self username password f).2).
Proof.
  unfold embedded. apply exchange_run_wp. cbn [fst snd fs trace].
  unfold reader_after_failure.
  wp_go; check_reader.
Qed.

(** The fallback: the streaming reader's output is parsed and searched
    for the key like the single-shot output, whatever its size. *)
Lemma fallback_returns_key lib self username password debug f resp msg out
    entries k :
  answer lib username password = Responded resp ->
  status_code resp = 200 ->
  zstd_decompress lib (content resp) cap = ZstdFailed msg ->
  zstd_stream_read lib (content resp) = Decompressed out ->
  json_loads lib out = Loaded (VDict entries) ->
  dict_get entries "key" = Some (VStr k) ->
  produced (VStr k) (standalone lib username password debug f) /\
  produced (VStr k) (embedded lib self username password f).
Proof.
  intros Hanswer Hstatus Hzstd Hstream Hjson Hkey.
  assert (Hhas : dict_has entries "key" = true).
  { unfold dict_has. rewrite Hkey. reflexivity. }
  unfold produced, reported_errors, standalone, embedded.
  split; run_along.
Qed.



(** *** The oversized exchange of [Demo] *)

Lemma drop_spaces_blanks n l :
  Demo.drop_spaces (replicate n Byte.x20 ++ l) = Demo.drop_spaces l.
Proof. induction n as [|n IH]; [reflexivity|exact IH]. Qed.

Lemma rstrip_blanks b n :
  Demo.rstrip (b ++ replicate n Byte.x20) = Demo.rstrip b.
Proof.
  unfold Demo.rstrip.
  rewrite reverse_app, reverse_replicate, drop_spaces_blanks. reflexivity.
Qed.

Lemma oversized_length :
  Z.of_nat (length Demo.oversized_body) = 27 + 10 * 1024 * 1024.
Proof.
  unfold Demo.oversized_body, Demo.padding.
  rewrite length_app, length_replicate, Nat2Z.inj_add, Z2Nat.id by lia.
  reflexivity.
Qed.

Lemma oversized_single_shot :
  Demo.decompress (Byte.x02 :: Demo.oversized_body) cap =
  ZstdFailed "decompression error: did not decompress full frame".
Proof.
  cbv beta iota delta [Demo.decompress]. rewrite oversized_length.
  reflexivity.
Qed.

Lemma oversized_loads :
  Demo.loads Demo.oversized_body =
  Loaded (VDict [("key", VStr "ABCD1234EFGH5678")]).
Proof.
  unfold Demo.loads, Demo.oversized_body. rewrite rstrip_blanks.
  vm_compute. reflexivity.
Qed.

(** C1, on the code. When the single-shot decompressor raises [ZstdError]
    on the body of a 200 answer, as it does when the output would exceed
    [max_output_size], the streaming reader's output is accepted whatever
    its size: a body that decompresses to more than the cap, holding the
    string [k] under [key], makes both functions return [k] and report no
    error. *)
Theorem oversized_body_is_accepted lib self username password debug f resp
    msg out entries k :
  answer lib username password = Responded resp ->
  status_code resp = 200 ->
  zstd_decompress lib (content resp) cap = ZstdFailed msg ->
  zstd_stream_read lib (content resp) = Decompressed out ->
  cap < Z.of_nat (length out) ->
  json_loads lib out = Loaded (VDict entries) ->
  dict_get entries "key" = Some (VStr k) ->
  produced (VStr k) (standalone lib username password debug f) /\
  produced (VStr k) (embedded lib self username password f).
Proof.
  intros Hanswer Hstatus Hzstd Hstream _ Hjson Hkey.
  eapply fallback_returns_key; eassumption.
Qed.

Lemma oversized_body_is_accepted_witness :
  cap < Z.of_nat (length Demo.oversized_body) /\
  produced (VStr "ABCD1234EFGH5678")
    (standalone (Demo.lib Demo.oversized_reply) "user" "secret" false ∅) /\
  produced (VStr "ABCD1234EFGH5678")
    (embedded (Demo.lib Demo.oversized_reply)
       (setup_anki.init ["" ; "config"] false None) "user" "secret" ∅).
Proof.
  assert (Hbig : cap < Z.of_nat (length Demo.oversized_body)).
  { rewrite oversized_length. reflexivity. }
  split; [exact Hbig|].
  apply (oversized_body_is_accepted (Demo.lib Demo.oversized_reply)
           (setup_anki.init ["" ; "config"] false None) "user" "secret"
           false ∅
           {| status_code := 200;
              content := Byte.x02 :: Demo.oversized_body;
              headers := [];
              url := "https://sync21.ankiweb.net/sync/hostKey" |}
           "decompression error: did not decompress full frame"
           Demo.oversized_body
           [("key", VStr "ABCD1234EFGH5678")] "ABCD1234EFGH5678").
  - reflexivity.
  - reflexivity.
  - exact oversized_single_shot.
  - reflexivity.
  - exact Hbig.
  - exact oversized_loads.
  - reflexivity.
Defined.

(** C2, on the code. When the object of a 200 answer holds a list under
    [key], both functions return the list and report no error:
    [get_sync_key], declared to return a string, and
    [get_sync_key_from_server], declared to return a string or [None],
    end with neither a credential string nor an error. *)
Theorem list_key_is_returned lib self username password debug f resp out
    entries items :
  answer lib username password = Responded resp ->
  status_code resp = 200 ->
  decoded lib (content resp) = Some out ->
  json_loads lib out = Loaded (VDict entries) ->
  dict_get entries "key" = Some (VList items) ->
  (produced (VList items) (standalone lib username password debug f) /\
   ~ one_outcome (VStr "") (standalone lib username password debug f)) /\
  (produced (VList items) (embedded lib self username password f) /\
   ~ one_outcome VNone (embedded lib self username password f)).
Proof.
  intros Hanswer Hstatus Hdecoded Hjson Hkey.
  assert (Hhas : dict_has entries "key" = true).
  { unfold dict_has. rewrite Hkey. reflexivity. }
  assert (Hruns :
    produced (VList items) (standalone lib username password debug f) /\
    produced (VList items) (embedded lib self username password f)).
  { unfold decoded in Hdecoded.
    unfold produced, reported_errors, standalone, embedded.
    destruct (zstd_decompress lib (content resp) cap) as [out'|msg] eqn:Hzstd;
      [|destruct (zstd_stream_read lib (content resp)) as [out'|msg']
          eqn:Hstream; [|discriminate Hdecoded]];
      injection Hdecoded as ->; split; run_along. }
  destruct Hruns as [[Hs1 Hs2] [He1 He2]].
  split; (split; [split; assumption|]).
  - unfold one_outcome, credential, produced, failed. rewrite Hs1.
    intros [(v & (k & -> & _) & Hv & _)|[Hv _]]; discriminate Hv.
  - unfold one_outcome, credential, produced, failed. rewrite He1.
    intros [(v & (k & -> & _) & Hv & _)|[Hv _]]; discriminate Hv.
Qed.

Lemma list_key_is_returned_witness :
  (produced (VList [VStr "x"])
     (standalone (Demo.lib Demo.list_key_reply) "user" "secret" false ∅) /\
   ~ one_outcome (VStr "")
       (standalone (Demo.lib Demo.list_key_reply) "user" "secret" false ∅)) /\
  (produced (VList [VStr "x"])
     (embedded (Demo.lib Demo.list_key_reply)
        (setup_anki.init ["" ; "config"] false None) "user" "secret" ∅) /\
   ~ one_outcome VNone
       (embedded (Demo.lib Demo.list_key_reply)
          (setup_anki.init ["" ; "config"] false None) "user" "secret" ∅)).
Proof.
  apply (list_key_is_returned (Demo.lib Demo.list_key_reply)
           (setup_anki.init ["" ; "config"] false None) "user" "secret"
           false ∅
           {| status_code := 200;
              content :=
                Demo.compress
                  (encode_utf8
                     (Demo.key_object ("[" +:+ Demo.quoted "x" +:+ "]")));
              headers := [];
              url := "https://sync21.ankiweb.net/sync/hostKey" |}
           (encode_utf8 (Demo.key_object ("[" +:+ Demo.quoted "x" +:+ "]")))
           [("key", VList [VStr "x"])] [VStr "x"]).
  - reflexivity.
  - reflexivity.
  - reflexivity.
  - vm_compute. reflexivity.
  - reflexivity.
Defined.

Ltac no_key_line :=
  first
    [ absurd_index
    | let H := fresh in
      intros [_ (? & H & ?)]; vm_compute in H; discriminate H
    | let H := fresh in let Hl := fresh in
      intros [_ (? & H & Hl)]; vm_compute in H; injection H as <-;
      vm_compute in Hl; discriminate Hl
    | let H := fresh in
      intros [H _]; discriminate H ].

(** C4, on the code. When the object of a 200 answer holds under [key] a
    value that is not a non-empty string (a number, a list, [null], the
    empty string, ...), [get_sync_key_from_server] returns that value and
    reports no error, and neither function ends with the error "no
    key". *)
Theorem unchecked_key_is_returned lib self username password debug f resp out
    entries v :
  answer lib username password = Responded resp ->
  status_code resp = 200 ->
  decoded lib (content resp) = Some out ->
  json_loads lib out = Loaded (VDict entries) ->
  dict_get entries "key" = Some v ->
  ~ credential v ->
  produced v (embedded lib self username password f) /\
  ~ key_rule VNone entries (embedded lib self username password f) /\
  ~ key_rule (VStr "") entries (standalone lib username password debug f).
Proof.
  intros Hanswer Hstatus Hdecoded Hjson Hkey Hnot.
  assert (Hhas : dict_has entries "key" = true).
  { unfold dict_has. rewrite Hkey. reflexivity. }
  assert (Hrule : forall failure r,
            key_rule failure entries r -> protocol_error failure r).
  { intros failure r. unfold key_rule. rewrite Hkey.
    destruct v as [| | | |k| |]; try exact id.
    destruct (String.eqb_spec k "") as [->|Hne]; [exact id|].
    destruct Hnot. exists k. auto. }
  assert (Hembedded : produced v (embedded lib self username password f)).
  { unfold decoded in Hdecoded.
    unfold produced, reported_errors, embedded.
    destruct (zstd_decompress lib (content resp) cap) as [out'|msg] eqn:Hzstd;
      [|destruct (zstd_stream_read lib (content resp)) as [out'|msg']
          eqn:Hstream; [|discriminate Hdecoded]];
      injection Hdecoded as ->; run_along. }
  split; [exact Hembedded|]. split.
  - intros H. apply Hrule in H. destruct Hembedded as [_ Hnone].
    destruct H as [_ (line & Hline & _)]. rewrite Hnone in Hline.
    discriminate Hline.
  - intros H. apply Hrule in H. revert H.
    unfold decoded in Hdecoded.
    unfold protocol_error, reported_errors, standalone.
    destruct (zstd_decompress lib (content resp) cap) as [out'|msg] eqn:Hzstd;
      [|destruct (zstd_stream_read lib (content resp)) as [out'|msg']
          eqn:Hstream; [|discriminate Hdecoded]];
      injection Hdecoded as ->;
      apply exchange_run_wp; cbn [fst snd fs trace];
      wp_go; no_key_line.
Qed.

Lemma unchecked_key_is_returned_witness :
  ~ credential (VInt 123) /\
  produced (VInt 123)
    (embedded (Demo.lib Demo.number_key_reply)
       (setup_anki.init ["" ; "config"] false None) "user" "secret" ∅) /\
  ~ key_rule VNone [("key", VInt 123)]
      (embedded (Demo.lib Demo.number_key_reply)
         (setup_anki.init ["" ; "config"] false None) "user" "secret" ∅) /\
  ~ key_rule (VStr "") [("key", VInt 123)]
      (standalone (Demo.lib Demo.number_key_reply) "user" "secret" false ∅).
Proof.
  assert (Hnot : ~ credential (VInt 123)).
  { intros (k & Hk & _). discriminate Hk. }
  split; [exact Hnot|].
  apply (unchecked_key_is_returned (Demo.lib Demo.number_key_reply)
           (setup_anki.init ["" ; "config"] false None) "user" "secret"
           false ∅
           {| status_code := 200;
              content := Demo.compress (encode_utf8 (Demo.key_object "123"));
              headers := [];
              url := "https://sync21.ankiweb.net/sync/hostKey" |}
           (encode_utf8 (Demo.key_object "123"))
           [("key", VInt 123)] (VInt 123)).
  - reflexivity.
  - reflexivity.
  - reflexivity.
  - vm_compute. reflexivity.
  - reflexivity.
  - exact Hnot.
Defined.

Ltac reader_ran :=
  first
    [ absurd_index
    | rewrite !in_app_iff; cbn [In]; tauto ].

Lemma oversized_fits_larger_bound :
  Demo.decompress (Byte.x02 :: Demo.oversized_body) (27 + cap) =
  Decompressed Demo.oversized_body.
Proof.
  cbv beta iota delta [Demo.decompress]. rewrite oversized_length.
  reflexivity.
Qed.



Ltac run_along_no_key :=
  apply exchange_run_wp; cbn [fst snd fs trace];
  wp_go;
  first [ absurd_index
        | split; [reflexivity|eexists; split; reflexivity] ].

(** X19. When the answer has status 200 and a body that decodes and
    parses to a JSON object: without a member [key], both functions fail
    with the error "no key"; with a member [key],
    [get_sync_key_from_server] returns its value unchecked and reports no
    error, and so does [get_sync_key] when the value is a string, empty
    or not. *)
Theorem key_member_decides lib self username password debug f resp out
    entries :
  answer lib username password = Responded resp ->
  status_code resp = 200 ->
  decoded lib (content resp) = Some out ->
  json_loads lib out = Loaded (VDict entries) ->
  match dict_get entries "key" with
  | None =>
      protocol_error (VStr "") (standalone lib username password debug f) /\
      protocol_error VNone (embedded lib self username password f)
  | Some v =>
      produced v (embedded lib self username password f) /\
      forall k, v = VStr k ->
                produced (VStr k) (standalone lib username password debug f)
  end.
Proof.
  intros Hanswer Hstatus Hdecoded Hjson.
  unfold decoded in Hdecoded.
  destruct (dict_get entries "key") as [v|] eqn:Hkey.
  - assert (Hhas : dict_has entries "key" = true).
    { unfold dict_has. rewrite Hkey. reflexivity. }
    unfold produced, reported_errors, standalone, embedded.
    destruct (zstd_decompress lib (content resp) cap) as [out'|msg] eqn:Hzstd;
      [|destruct (zstd_stream_read lib (content resp)) as [out'|msg']
          eqn:Hstream; [|discriminate Hdecoded]];
      injection Hdecoded as ->;
      (split; [|intros k ->]); run_along.
  - assert (Hhas : dict_has entries "key" = false).
    { unfold dict_has. rewrite Hkey. reflexivity. }
    unfold protocol_error, reported_errors, standalone, embedded.
    destruct (zstd_decompress lib (content resp) cap) as [out'|msg] eqn:Hzstd;
      [|destruct (zstd_stream_read lib (content resp)) as [out'|msg']
          eqn:Hstream; [|discriminate Hdecoded]];
      injection Hdecoded as ->;
      split; run_along_no_key.
Qed.

Lemma key_member_decides_witness :
  (protocol_error (VStr "")
     (standalone Cases.refused "user" "secret" false ∅) /\
   protocol_error VNone
     (embedded Cases.refused (setup_anki.init ["" ; "config"] false None)
        "user" "secret" ∅)) /\
  (produced (VStr "")
     (embedded Cases.empty_key (setup_anki.init ["" ; "config"] false None)
        "user" "secret" ∅) /\
   forall k, VStr "" = VStr k ->
             produced (VStr k)
               (standalone Cases.empty_key "user" "secret" false ∅)).
Proof.
  split.
  - apply (key_member_decides Cases.refused
             (setup_anki.init ["" ; "config"] false None) "user" "secret"
             false ∅
             {| status_code := 200;
                content := Demo.compress (encode_utf8 Cases.refusal);
                headers := [];
                url := "https://sync21.ankiweb.net/sync/hostKey" |}
             (encode_utf8 Cases.refusal)
             [("msg", VStr "invalid credentials")]).
    + reflexivity.
    + reflexivity.
    + reflexivity.
    + vm_compute. reflexivity.
  - apply (key_member_decides Cases.empty_key
             (setup_anki.init ["" ; "config"] false None) "user" "secret"
             false ∅
             {| status_code := 200;
                content :=
                  Demo.compress
                    (encode_utf8 (Demo.key_object (Demo.quoted "")));
                headers := [];
                url := "https://sync21.ankiweb.net/sync/hostKey" |}
             (encode_utf8 (Demo.key_object (Demo.quoted "")))
             [("key", VStr "")]).
    + reflexivity.
    + reflexivity.
    + reflexivity.
    + vm_compute. reflexivity.
Defined.

(** ** Provisioning *)

(** C9. When [prefs21.db] exists, [create_profile] and [setup_all]
    return [True] having only tested for the file and printed: no network
    call is made and the file system is unchanged; so a second run finds
    the same files and does the same. *)
Theorem existing_profile_is_kept lib self sync_user sync_key sync_password
    no_sync f :
  is_Some (f !! setup_anki.prefs_db self) ->
  let create :=
    setup_anki.create_profile lib self sync_user sync_key sync_password
      no_sync in
  let setup :=
    setup_anki.setup_all lib self sync_user sync_key sync_password no_sync in
  run create f =
    (Ret true,
     State f
       [FsExists (setup_anki.prefs_db self);
        Stdout ("[OK] Profile database already exists: " +:+
                path_str (setup_anki.prefs_db self))]) /\
  run setup f =
    (Ret true,
     State f
       [Stdout (str_repeat "=" 60);
        Stdout "Anki Docker Setup";
        Stdout (str_repeat "=" 60);
        FsExists (setup_anki.prefs_db self);
        Stdout "[OK] Setup already complete, skipping"]) /\
  run create (fs (run create f).2) = run create f /\
  run setup (fs (run setup f).2) = run setup f.
Proof.
  intros Hexists create setup.
  assert (Hpresent :
            bool_decide (is_Some (f !! setup_anki.prefs_db self)) = true).
  { apply bool_decide_eq_true_2. exact Hexists. }
  assert (Hcreate : run create f =
    (Ret true,
     State f
       [FsExists (setup_anki.prefs_db self);
        Stdout ("[OK] Profile database already exists: " +:+
                path_str (setup_anki.prefs_db self))])).
  { subst create. apply exchange_run_wp. wp_go. reflexivity. }
  assert (Hsetup : run setup f =
    (Ret true,
     State f
       [Stdout (str_repeat "=" 60);
        Stdout "Anki Docker Setup";
        Stdout (str_repeat "=" 60);
        FsExists (setup_anki.prefs_db self);
        Stdout "[OK] Setup already complete, skipping"])).
  { subst setup. apply exchange_run_wp. wp_go. reflexivity. }
  rewrite Hcreate, Hsetup. cbn [snd fs].
  rewrite Hcreate, Hsetup. auto.
Qed.

(** *** Dicts *)

Lemma dict_get_set d k v k' :
  dict_get (dict_set d k v) k' =
  if String.eqb k k' then Some v else dict_get d k'.
Proof.
  induction d as [|[k0 v0] d IH]; cbn [dict_set dict_get].
  - destruct (String.eqb k k'); reflexivity.
  - destruct (String.eqb_spec k0 k) as [->|Hne]; cbn [dict_get].
    + destruct (String.eqb k k'); reflexivity.
    + rewrite IH. destruct (String.eqb_spec k0 k') as [->|Hne'].
      * destruct (String.eqb_spec k k') as [->|_]; [done|reflexivity].
      * reflexivity.
Qed.

(** After [d.update(other)] a key has the value [other] gives it, and
    where [other] gives none, the value it had in [d]. *)
Lemma dict_get_update d other k :
  NoDup (map fst other) ->
  dict_get (dict_update d other) k =
  match dict_get other k with
  | Some v => Some v
  | None => dict_get d k
  end.
Proof.
  unfold dict_update. revert d.
  induction other as [|[k0 v0] other IH]; intros d Hnodup;
    cbn [fold_left dict_get fst snd]; [reflexivity|].
  apply NoDup_cons in Hnodup as [Hfresh Hnodup].
  rewrite IH by exact Hnodup. rewrite dict_get_set.
  destruct (String.eqb_spec k0 k) as [->|Hne]; [|reflexivity].
  destruct (dict_get other k) as [v|] eqn:Hget; [|reflexivity].
  exfalso. apply Hfresh. clear -Hget.
  induction other as [|[k1 v1] other IH]; cbn [dict_get] in Hget; [done|].
  destruct (String.eqb_spec k1 k) as [->|_]; [left|right; auto].
Qed.

Lemma parent_path_join p name : parent (path_join p name) = p.
Proof. apply removelast_last. Qed.

Lemma default_config_nodup : NoDup (map fst setup_anki.default_config).
Proof. apply NoDup_ListNoDup. vm_compute. repeat constructor; cbn; intuition discriminate. Qed.




Lemma existing_profile_is_kept_witness :
  let create :=
    setup_anki.create_profile (Demo.lib Demo.forbidden_reply) Demo.demo_setup
      "user" "" (Some "secret") false in
  let setup :=
    setup_anki.setup_all (Demo.lib Demo.forbidden_reply) Demo.demo_setup
      "user" "" (Some "secret") false in
  run create Demo.provisioned =
    (Ret true,
     State Demo.provisioned
       [FsExists (setup_anki.prefs_db Demo.demo_setup);
        Stdout ("[OK] Profile database already exists: " +:+
                path_str (setup_anki.prefs_db Demo.demo_setup))]) /\
  run setup Demo.provisioned =
    (Ret true,
     State Demo.provisioned
       [Stdout (str_repeat "=" 60);
        Stdout "Anki Docker Setup";
        Stdout (str_repeat "=" 60);
        FsExists (setup_anki.prefs_db Demo.demo_setup);
        Stdout "[OK] Setup already complete, skipping"]) /\
  run create (fs (run create Demo.provisioned).2) = run create Demo.provisioned /\
  run setup (fs (run setup Demo.provisioned).2) = run setup Demo.provisioned.
Proof.
  apply (existing_profile_is_kept (Demo.lib Demo.forbidden_reply)
           Demo.demo_setup "user" "" (Some "secret") false Demo.provisioned).
  vm_compute. eauto.
Defined.

Import Cases.
Ltac main_leaf :=
  first
    [ absurd_index
    | right; split; reflexivity
    | left; split; [reflexivity|];
      eexists; split; [show_issued|];
      split; [eassumption || reflexivity|]; split; reflexivity ].


(** ** Further properties of the login exchange *)

(** X1. Once [parser.parse_args()] has returned the arguments, [main]
    of get_anki_synckey.py passes 0 or 1 to [sys.exit]. With status 0 the
    output stream holds exactly one line, the key the service issued, and
    the error stream no error; with status 1 nothing is written to the
    output stream. *)
Theorem main_exit_status lib user password debug f :
  let r := run (get_anki_synckey.main lib user password debug) f in
  (r.1 = Ret 0 /\
   exists v, issued lib user password v /\ truthy v = true /\
             List.filter is_stdout (trace r.2) = [Stdout (str lib v)] /\
             List.filter is_stderr_error (trace r.2) = []) \/
  (r.1 = Ret 1 /\ List.filter is_stdout (trace r.2) = []).
Proof.
  intros r. subst r. apply exchange_run_wp. cbn [fst snd fs trace].
  unfold reported_errors.
  wp_go; main_leaf.
Qed.

(** X2. When the request raises a [RequestException], both functions
    return their failure value without decompressing or parsing anything;
    [get_sync_key] reports a time-out as "Connection timeout" and any other
    such exception as "Connection failed" with its text, and
    [get_sync_key_from_server] reports both as "Connection error" with the
    text. *)
Theorem connection_failure lib self username password debug f e :
  answer lib username password = HttpRaised e ->
  isinstance e RequestException = true ->
  ((standalone lib username password debug f).1 = Ret (VStr "") /\
   reported_errors (trace (standalone lib username password debug f).2) =
     [Stderr (if isinstance e Timeout then "Error: Connection timeout"
              else "Error: Connection failed: " +:+ exc_str e)] /\
   List.filter is_decoding
     (trace (standalone lib username password debug f).2) = []) /\
  ((embedded lib self username password f).1 = Ret VNone /\
   reported_errors (trace (embedded lib self username password f).2) =
     [Stdout ("[ERROR] Connection error: " +:+ exc_str e)] /\
   List.filter is_decoding
     (trace (embedded lib self username password f).2) = []).
Proof.
  intros Hanswer Hclass.
  unfold reported_errors, standalone, embedded.
  destruct e as [[] msg]; try discriminate Hclass; split; run_along.
Qed.

(** X3. When the body of a 200 answer decodes to octets that are not
    JSON, both functions return their failure value; [get_sync_key]
    reports "Invalid JSON response" with the parser's text, and
    [get_sync_key_from_server] reports the parser's text alone. *)
Theorem malformed_body lib self username password debug f resp out msg :
  answer lib username password = Responded resp ->
  status_code resp = 200 ->
  decoded lib (content resp) = Some out ->
  json_loads lib out = NotJson msg ->
  ((standalone lib username password debug f).1 = Ret (VStr "") /\
   reported_errors (trace (standalone lib username password debug f).2) =
     [Stderr ("Error: Invalid JSON response: " +:+ msg)]) /\
  ((embedded lib self username password f).1 = Ret VNone /\
   reported_errors (trace (embedded lib self username password f).2) =
     [Stdout ("[ERROR] " +:+ msg)]).
Proof.
  intros Hanswer Hstatus Hdecoded Hjson.
  unfold decoded in Hdecoded.
  unfold reported_errors, standalone, embedded.
  destruct (zstd_decompress lib (content resp) cap) as [out'|msg1] eqn:Hzstd;
    [|destruct (zstd_stream_read lib (content resp)) as [out'|msg2]
        eqn:Hstream; [|discriminate Hdecoded]];
    injection Hdecoded as ->; split; run_along.
Qed.

(** X4. When both the single-shot decompressor and the streaming reader
    raise [ZstdError] on the body of a 200 answer, both functions return
    their failure value, report the text of the streaming reader's error,
    and parse nothing. *)
Theorem undecodable_body lib self username password debug f resp msg1 msg2 :
  answer lib username password = Responded resp ->
  status_code resp = 200 ->
  zstd_decompress lib (content resp) cap = ZstdFailed msg1 ->
  zstd_stream_read lib (content resp) = ZstdFailed msg2 ->
  ((standalone lib username password debug f).1 = Ret (VStr "") /\
   reported_errors (trace (standalone lib username password debug f).2) =
     [Stderr ("Error: " +:+ msg2)] /\
   List.filter is_parse
     (trace (standalone lib username password debug f).2) = []) /\
  ((embedded lib self username password f).1 = Ret VNone /\
   reported_errors (trace (embedded lib self username password f).2) =
     [Stdout ("[ERROR] " +:+ msg2)] /\
   List.filter is_parse
     (trace (embedded lib self username password f).2) = []).
Proof.
  intros Hanswer Hstatus Hzstd Hstream.
  unfold reported_errors, standalone, embedded.
  split; run_along.
Qed.

(** X5. When the body of a 200 answer decodes and parses to JSON that is
    not an object (a list, a string, a number, a flag or null), both
    functions return their failure value after reporting one error: no
    such answer yields a key. *)
Theorem non_object_fails lib self username password debug f resp out v :
  answer lib username password = Responded resp ->
  status_code resp = 200 ->
  decoded lib (content resp) = Some out ->
  json_loads lib out = Loaded v ->
  (forall entries, v <> VDict entries) ->
  failed (VStr "") (standalone lib username password debug f) /\
  failed VNone (embedded lib self username password f).
Proof.
  intros Hanswer Hstatus Hdecoded Hjson Hother.
  unfold decoded in Hdecoded.
  unfold failed, reported_errors, standalone, embedded.
  destruct v; try (exfalso; eapply Hother; reflexivity);
  (destruct (zstd_decompress lib (content resp) cap) as [out'|msg1] eqn:Hzstd;
    [|destruct (zstd_stream_read lib (content resp)) as [out'|msg2]
        eqn:Hstream; [|discriminate Hdecoded]];
    injection Hdecoded as ->; split; run_along).
Qed.

(** X6. When the object of a 200 answer holds the empty string under
    [key], [main] of get_anki_synckey.py ends with status 1 and, without
    [--debug], writes nothing to either stream: the failure has no
    diagnostic. *)
Theorem empty_key_fails_silently lib user password f resp out entries :
  answer lib user password = Responded resp ->
  status_code resp = 200 ->
  decoded lib (content resp) = Some out ->
  json_loads lib out = Loaded (VDict entries) ->
  dict_get entries "key" = Some (VStr "") ->
  (run (get_anki_synckey.main lib user password false) f).1 = Ret 1 /\
  List.filter is_console
    (trace (run (get_anki_synckey.main lib user password false) f).2) = [].
Proof.
  intros Hanswer Hstatus Hdecoded Hjson Hkey.
  assert (Hhas : dict_has entries "key" = true).
  { unfold dict_has. rewrite Hkey. reflexivity. }
  unfold decoded in Hdecoded.
  destruct (zstd_decompress lib (content resp) cap) as [out'|msg1] eqn:Hzstd;
    [|destruct (zstd_stream_read lib (content resp)) as [out'|msg2]
        eqn:Hstream; [|discriminate Hdecoded]];
    injection Hdecoded as ->; run_along.
Qed.

Lemma connection_failure_witness :
  ((standalone timed_out "user" "secret" false ∅).1 = Ret (VStr "") /\
   reported_errors (trace (standalone timed_out "user" "secret" false ∅).2) =
     [Stderr "Error: Connection timeout"] /\
   List.filter is_decoding
     (trace (standalone timed_out "user" "secret" false ∅).2) = []) /\
  ((embedded timed_out Demo.demo_setup "user" "secret" ∅).1 = Ret VNone /\
   reported_errors
     (trace (embedded timed_out Demo.demo_setup "user" "secret" ∅).2) =
     [Stdout "[ERROR] Connection error: Read timed out. (read timeout=30)"] /\
   List.filter is_decoding
     (trace (embedded timed_out Demo.demo_setup "user" "secret" ∅).2) = []).
Proof.
  apply (connection_failure timed_out Demo.demo_setup "user" "secret" false ∅
           (Exc Timeout "Read timed out. (read timeout=30)")).
  - reflexivity.
  - reflexivity.
Defined.

Lemma malformed_body_witness :
  ((standalone garbled "user" "secret" false ∅).1 = Ret (VStr "") /\
   reported_errors (trace (standalone garbled "user" "secret" false ∅).2) =
     [Stderr "Error: Invalid JSON response: Expecting value"]) /\
  ((embedded garbled Demo.demo_setup "user" "secret" ∅).1 = Ret VNone /\
   reported_errors
     (trace (embedded garbled Demo.demo_setup "user" "secret" ∅).2) =
     [Stdout "[ERROR] Expecting value"]).
Proof.
  apply (malformed_body garbled Demo.demo_setup "user" "secret" false ∅
           {| status_code := 200;
              content := Demo.compress (encode_utf8 "<html>busy</html>");
              headers := [];
              url := "https://sync21.ankiweb.net/sync/hostKey" |}
           (encode_utf8 "<html>busy</html>") "Expecting value").
  - reflexivity.
  - reflexivity.
  - reflexivity.
  - vm_compute. reflexivity.
Defined.

Lemma undecodable_body_witness :
  ((standalone unframed "user" "secret" false ∅).1 = Ret (VStr "") /\
   reported_errors (trace (standalone unframed "user" "secret" false ∅).2) =
     [Stderr "Error: zstd decompress error: Unknown frame descriptor"] /\
   List.filter is_parse
     (trace (standalone unframed "user" "secret" false ∅).2) = []) /\
  ((embedded unframed Demo.demo_setup "user" "secret" ∅).1 = Ret VNone /\
   reported_errors
     (trace (embedded unframed Demo.demo_setup "user" "secret" ∅).2) =
     [Stdout "[ERROR] zstd decompress error: Unknown frame descriptor"] /\
   List.filter is_parse
     (trace (embedded unframed Demo.demo_setup "user" "secret" ∅).2) = []).
Proof.
  apply (undecodable_body unframed Demo.demo_setup "user" "secret" false ∅
           {| status_code := 200; content := [Byte.x00; Byte.x01];
              headers := [];
              url := "https://sync21.ankiweb.net/sync/hostKey" |}
           "decompression error: Unknown frame descriptor"
           "zstd decompress error: Unknown frame descriptor").
  - reflexivity.
  - reflexivity.
  - reflexivity.
  - reflexivity.
Defined.

Lemma non_object_fails_witness :
  failed (VStr "") (standalone array_answer "user" "secret" false ∅) /\
  failed VNone (embedded array_answer Demo.demo_setup "user" "secret" ∅).
Proof.
  apply (non_object_fails array_answer Demo.demo_setup "user" "secret" false
           ∅
           {| status_code := 200;
              content := Demo.compress (encode_utf8 "[1, 2]");
              headers := [];
              url := "https://sync21.ankiweb.net/sync/hostKey" |}
           (encode_utf8 "[1, 2]") (VList [VInt 1; VInt 2])).
  - reflexivity.
  - reflexivity.
  - reflexivity.
  - vm_compute. reflexivity.
  - intros entries H. discriminate H.
Defined.

Lemma empty_key_fails_silently_witness :
  (run (get_anki_synckey.main empty_key "user" "secret" false) ∅).1 = Ret 1 /\
  List.filter is_console
    (trace (run (get_anki_synckey.main empty_key "user" "secret" false) ∅).2)
    = [].
Proof.
  apply (empty_key_fails_silently empty_key "user" "secret" ∅
           {| status_code := 200;
              content :=
                Demo.compress
                  (encode_utf8 (Demo.key_object (Demo.quoted "")));
              headers := [];
              url := "https://sync21.ankiweb.net/sync/hostKey" |}
           (encode_utf8 (Demo.key_object (Demo.quoted "")))
           [("key", VStr "")]).
  - reflexivity.
  - reflexivity.
  - reflexivity.
  - vm_compute. reflexivity.
  - reflexivity.
Defined.

(** ** Further properties of the provisioning *)

(** X7. [get_int_version] packs a version so that its parts can be read
    back: for a month and a patch level below 100, the year is the number
    divided by 10000, the month the hundreds modulo 100 and the patch
    level the number modulo 100. *)
Theorem int_version_fields year month patch :
  0 <= month < 100 -> 0 <= patch < 100 ->
  let v := setup_anki.get_int_version year month patch in
  v / 10000 = year /\ v / 100 mod 100 = month /\ v mod 100 = patch.
Proof.
  intros Hm Hp v. subst v. unfold setup_anki.get_int_version.
  repeat split.
  - replace (year * 10000 + month * 100 + patch)
      with ((month * 100 + patch) + year * 10000) by lia.
    rewrite Z.div_add by lia. rewrite Z.div_small by lia. lia.
  - replace (year * 10000 + month * 100 + patch)
      with (patch + (year * 100 + month) * 100) by lia.
    rewrite Z.div_add by lia. rewrite (Z.div_small patch) by lia.
    rewrite Z.add_0_l, Z.add_comm, Z.mod_add by lia. apply Z.mod_small. lia.
  - replace (year * 10000 + month * 100 + patch)
      with (patch + (year * 100 + month) * 100) by lia.
    rewrite Z.mod_add by lia. apply Z.mod_small. lia.
Qed.

Lemma int_version_fields_witness :
  let v := setup_anki.get_int_version 24 11 3 in
  v / 10000 = 24 /\ v / 100 mod 100 = 11 /\ v mod 100 = 3.
Proof. apply (int_version_fields 24 11 3); lia. Defined.

(** X8. Every run of [download_addon] returns without raising, makes
    exactly one request, a GET of the add-on's download URL that follows
    redirects with a 30 second timeout, and touches no file; it returns
    [None] or, for an answer with status 200, a record whose data is the
    body of that answer. *)
Theorem download_addon_run lib self addon_id f :
  let r := run (setup_anki.download_addon lib self addon_id) f in
  fs r.2 = f /\
  List.filter is_network (trace r.2) = [HttpGet (download_url addon_id) true 30] /\
  List.filter is_file_access (trace r.2) = [] /\
  (r.1 = Ret None \/
   exists d resp,
     r.1 = Ret (Some d) /\
     requests_get lib (download_url addon_id) true 30 = Responded resp /\
     status_code resp = 200 /\
     setup_anki.data d = content resp).
Proof.
  intros r. subst r. apply exchange_run_wp. cbn [fst snd fs trace].
  wp_go.
  all: split; [reflexivity|split; [reflexivity|split; [reflexivity|]]].
  all: first [left; reflexivity | right; eexists _, _; split; [reflexivity|]; split; [eassumption|]; split; [eauto using status_ok|reflexivity]].
Qed.

(** X9. When the 200 answer has no [attachment] content disposition and
    the final URL has no query, [download_addon] names the file
    [<id>.ankiaddon] and sets the four numbers to 0. *)
Theorem download_defaults lib self addon_id f resp :
  requests_get lib (download_url addon_id) true 30 = Responded resp ->
  status_code resp = 200 ->
  match_after "attachment; filename="
    (header_get (headers resp) "content-disposition" "") = None ->
  url_query lib (url resp) = [] ->
  (run (setup_anki.download_addon lib self addon_id) f).1 =
    Ret (Some {| setup_anki.data := content resp;
                 setup_anki.filename := pretty addon_id +:+ ".ankiaddon";
                 setup_anki.mod_time := 0;
                 setup_anki.min_point_version := 0;
                 setup_anki.max_point_version := 0;
                 setup_anki.branch_index := 0 |}).
Proof.
  intros Hget Hstatus Hname Hquery.
  apply exchange_run_wp; cbn [fst snd fs trace].
  wp_go; rewrite Hname; reflexivity.
Qed.

Lemma download_defaults_witness :
  (run (setup_anki.download_addon (Demo.lib (Demo.reply 200 [Byte.x50]))
          Demo.demo_setup 2055492159) ∅).1 =
    Ret (Some {| setup_anki.data := [Byte.x50];
                 setup_anki.filename := "2055492159.ankiaddon";
                 setup_anki.mod_time := 0;
                 setup_anki.min_point_version := 0;
                 setup_anki.max_point_version := 0;
                 setup_anki.branch_index := 0 |}).
Proof.
  apply (download_defaults (Demo.lib (Demo.reply 200 [Byte.x50]))
           Demo.demo_setup 2055492159 ∅
           {| status_code := 200; content := [Byte.x50]; headers := [];
              url := "https://sync21.ankiweb.net/sync/hostKey" |}).
  - reflexivity.
  - reflexivity.
  - reflexivity.
  - reflexivity.
Defined.

(** X10. When one of the query parameters [t], [minpt], [maxpt], [bidx]
    of the final URL is present and its first value is not an integer,
    [download_addon] returns [None], whatever the body. *)
Theorem download_rejects_bad_number lib self addon_id f resp name texts text :
  requests_get lib (download_url addon_id) true 30 = Responded resp ->
  status_code resp = 200 ->
  In name ["t"; "minpt"; "maxpt"; "bidx"] ->
  find (fun kv => String.eqb kv.1 name) (url_query lib (url resp)) =
    Some (name, text :: texts) ->
  int_of_str lib text = None ->
  (run (setup_anki.download_addon lib self addon_id) f).1 = Ret None /\
  fs (run (setup_anki.download_addon lib self addon_id) f).2 = f.
Proof.
  intros Hget Hstatus Hname Hfind Hint.
  cbn [In] in Hname.
  destruct Hname as [<-|[<-|[<-|[<-|[]]]]]; run_along.
Qed.

Lemma download_rejects_bad_number_witness :
  (run (setup_anki.download_addon redirected Demo.demo_setup 2055492159) ∅).1
    = Ret None /\
  fs (run (setup_anki.download_addon redirected Demo.demo_setup 2055492159)
        ∅).2 = ∅.
Proof.
  apply (download_rejects_bad_number redirected Demo.demo_setup 2055492159 ∅
           {| status_code := 200; content := []; headers := [];
              url := "https://sync21.ankiweb.net/sync/hostKey" |}
           "t" [] "soon").
  - reflexivity.
  - reflexivity.
  - left. reflexivity.
  - reflexivity.
  - reflexivity.
Defined.

(** X11. [read_manifest_from_zip] returns the empty dict, and raises
    nothing, when the data is no zip archive, when the archive has no
    member manifest.json, and when that member is not JSON. *)
Theorem manifest_fallback lib zip_data f :
  (zip_members lib zip_data = None \/
   (exists members, zip_members lib zip_data = Some members /\
      (manifest_of members = None \/
       exists text msg, manifest_of members = Some text /\
                        json_loads lib text = NotJson msg))) ->
  (run (setup_anki.read_manifest_from_zip lib zip_data) f).1 = Ret (VDict []) /\
  fs (run (setup_anki.read_manifest_from_zip lib zip_data) f).2 = f.
Proof.
  unfold manifest_of.
  intros [Hzip|(members & Hzip & [Hnone|(text & msg & Hsome & Hjson)])].
  - run_along.
  - destruct (find _ (reverse members)) as [kv|] eqn:Hfind;
      [discriminate Hnone|]. run_along.
  - destruct (find _ (reverse members)) as [[name text']|] eqn:Hfind;
      [|discriminate Hsome]. injection Hsome as ->. run_along.
Qed.

Lemma manifest_fallback_witness :
  (run (setup_anki.read_manifest_from_zip (Demo.lib Demo.forbidden_reply)
          [Byte.x50; Byte.x4b]) ∅).1 = Ret (VDict []) /\
  fs (run (setup_anki.read_manifest_from_zip (Demo.lib Demo.forbidden_reply)
            [Byte.x50; Byte.x4b]) ∅).2 = ∅.
Proof.
  apply (manifest_fallback (Demo.lib Demo.forbidden_reply)
           [Byte.x50; Byte.x4b] ∅).
  left. reflexivity.
Defined.

(** X12. When the add-on folder exists, [install_addon] returns [True]
    having only tested for it and printed: nothing is downloaded and no
    file is changed. *)
Theorem installed_addon_is_kept lib self f :
  is_Some (f !! setup_anki.addon_folder self) ->
  run (setup_anki.install_addon lib self) f =
    (Ret true,
     State f
       [FsExists (setup_anki.addon_folder self);
        Stdout ("[OK] AnkiConnect already installed: " +:+
                path_str (setup_anki.addon_folder self))]).
Proof.
  intros Hexists.
  assert (Hpresent :
    bool_decide (is_Some (f !! setup_anki.addon_folder self)) = true).
  { apply bool_decide_eq_true_2. exact Hexists. }
  apply exchange_run_wp. wp_go. reflexivity.
Qed.

Lemma installed_addon_is_kept_witness :
  run (setup_anki.install_addon (Demo.lib Demo.forbidden_reply)
         Demo.custom_setup) unconfigured =
    (Ret true,
     State unconfigured
       [FsExists (setup_anki.addon_folder Demo.custom_setup);
        Stdout ("[OK] AnkiConnect already installed: " +:+
                path_str (setup_anki.addon_folder Demo.custom_setup))]).
Proof.
  apply (installed_addon_is_kept (Demo.lib Demo.forbidden_reply)
           Demo.custom_setup unconfigured).
  vm_compute. eauto.
Defined.

(** X13. When the add-on folder does not exist and the download fails
    (the request raises, or the answer's status is not 200),
    [install_addon] returns [False], reports the failed download last and
    creates nothing. *)
Theorem failed_download_installs_nothing lib self f :
  f !! setup_anki.addon_folder self = None ->
  match requests_get lib (download_url setup_anki.ANKICONNECT_ADDON_ID)
          true 30 with
  | Responded resp => status_code resp <> 200
  | HttpRaised _ => True
  end ->
  (run (setup_anki.install_addon lib self) f).1 = Ret false /\
  fs (run (setup_anki.install_addon lib self) f).2 = f /\
  last (trace (run (setup_anki.install_addon lib self) f).2) =
    Some (Stdout "[ERROR] Failed to download AnkiConnect").
Proof.
  intros Habsent Hget.
  assert (Hpresent :
    bool_decide (is_Some (f !! setup_anki.addon_folder self)) = false).
  { apply bool_decide_eq_false_2. rewrite Habsent. intros [? ?]. discriminate. }
  destruct (requests_get lib (download_url setup_anki.ANKICONNECT_ADDON_ID)
              true 30) as [resp|e] eqn:Hanswer.
  - assert (Hne : negb (status_code resp =? 200) = true).
    { apply negb_true_iff. lia. }
    run_along.
  - run_along.
Qed.

Lemma failed_download_installs_nothing_witness :
  (run (setup_anki.install_addon (Demo.lib Demo.forbidden_reply)
          Demo.demo_setup) ∅).1 = Ret false /\
  fs (run (setup_anki.install_addon (Demo.lib Demo.forbidden_reply)
            Demo.demo_setup) ∅).2 = ∅ /\
  last (trace (run (setup_anki.install_addon (Demo.lib Demo.forbidden_reply)
                      Demo.demo_setup) ∅).2) =
    Some (Stdout "[ERROR] Failed to download AnkiConnect").
Proof.
  apply (failed_download_installs_nothing (Demo.lib Demo.forbidden_reply)
           Demo.demo_setup ∅).
  - reflexivity.
  - vm_compute. discriminate.
Defined.

(** X14. When the add-on folder does not exist, [configure_addon]
    returns [False] having only tested for it and reported the missing
    add-on; no file is written. *)
Theorem missing_addon_is_not_configured lib self f :
  f !! setup_anki.addon_folder self = None ->
  run (setup_anki.configure_addon lib self) f =
    (Ret false,
     State f
       [FsExists (setup_anki.addon_folder self);
        Stdout ("[ERROR] AnkiConnect not installed at: " +:+
                path_str (setup_anki.addon_folder self))]).
Proof.
  intros Habsent.
  assert (Hpresent :
    bool_decide (is_Some (f !! setup_anki.addon_folder self)) = false).
  { apply bool_decide_eq_false_2. rewrite Habsent. intros [? ?]. discriminate. }
  apply exchange_run_wp. wp_go. reflexivity.
Qed.

Lemma missing_addon_is_not_configured_witness :
  run (setup_anki.configure_addon (Demo.lib Demo.forbidden_reply)
         Demo.demo_setup) ∅ =
    (Ret false,
     State ∅
       [FsExists (setup_anki.addon_folder Demo.demo_setup);
        Stdout ("[ERROR] AnkiConnect not installed at: " +:+
                path_str (setup_anki.addon_folder Demo.demo_setup))]).
Proof.
  apply (missing_addon_is_not_configured (Demo.lib Demo.forbidden_reply)
           Demo.demo_setup ∅).
  reflexivity.
Defined.

(** X15. When the add-on is installed without a config.json,
    [configure_addon] succeeds and writes the file with the built-in
    defaults, each replaced by the caller's value where the caller's
    config has the key, together with the caller's other keys. *)
Theorem first_configuration lib self f encoded :
  NoDup (map fst (setup_anki.ankiconnect_config self)) ->
  f !! setup_anki.addon_folder self = Some Directory ->
  f !! setup_anki.config_path self = None ->
  let final :=
    dict_update setup_anki.default_config (setup_anki.ankiconnect_config self)
  in
  text_encode lib (json_dumps_indent2 lib (VDict final)) = Some encoded ->
  (run (setup_anki.configure_addon lib self) f).1 = Ret true /\
  fs (run (setup_anki.configure_addon lib self) f).2 =
    <[setup_anki.config_path self := File encoded]> f /\
  forall k,
    dict_get final k =
    match dict_get (setup_anki.ankiconnect_config self) k with
    | Some v => Some v
    | None => dict_get setup_anki.default_config k
    end.
Proof.
  intros Hnodup Hfolder Hconfig final Hencode.
  assert (Hfinal : forall k,
    dict_get final k =
    match dict_get (setup_anki.ankiconnect_config self) k with
    | Some v => Some v
    | None => dict_get setup_anki.default_config k
    end).
  { intros k. unfold final. apply dict_get_update. exact Hnodup. }
  assert (Hdefaults : forall k v,
            dict_get setup_anki.default_config k = Some v ->
            exists v', dict_get final k = Some v').
  { intros k v Hk. rewrite Hfinal, Hk.
    destruct (dict_get (setup_anki.ankiconnect_config self) k); eauto. }
  destruct (Hdefaults "webBindAddress" _ eq_refl) as [address Haddress].
  destruct (Hdefaults "webBindPort" _ eq_refl) as [port Hport].
  destruct (Hdefaults "webCorsOriginList" _ eq_refl) as [origins Horigins].
  assert (Hpresent1 :
    bool_decide (is_Some (f !! setup_anki.addon_folder self)) = true).
  { apply bool_decide_eq_true_2. rewrite Hfolder. eauto. }
  assert (Hpresent2 :
    bool_decide (is_Some (f !! setup_anki.config_path self)) = false).
  { apply bool_decide_eq_false_2. rewrite Hconfig. intros [? ?]. discriminate. }
  assert (Hparent :
    f !! parent (setup_anki.config_path self) = Some Directory).
  { unfold setup_anki.config_path. rewrite parent_path_join. exact Hfolder. }
  assert (Hsame : dict_update (dict_update [] setup_anki.default_config)
                    (setup_anki.ankiconnect_config self) = final)
    by reflexivity.
  split; [|split; [|exact Hfinal]].
  - apply (exchange_run_wp _ (fun r => r.1 = Ret true)). cbn [fst].
    unfold final in *. cbn [dict_update fold_left] in *.
    wp_go; reflexivity.
  - apply (exchange_run_wp _ (fun r => fs r.2 = _)). cbn [snd fs].
    unfold final in *. 
    wp_go; apply insert_insert_eq.
Qed.

Lemma first_configuration_witness :
  let final := dict_update setup_anki.default_config [("extra", VInt 2)] in
  (run (setup_anki.configure_addon (Demo.lib Demo.forbidden_reply)
          Demo.custom_setup) unconfigured).1 = Ret true /\
  fs (run (setup_anki.configure_addon (Demo.lib Demo.forbidden_reply)
            Demo.custom_setup) unconfigured).2 =
    <[setup_anki.config_path Demo.custom_setup :=
        File (encode_utf8 (Demo.dumps (VDict final)))]> unconfigured /\
  forall k,
    dict_get final k =
    match dict_get [("extra", VInt 2)] k with
    | Some v => Some v
    | None => dict_get setup_anki.default_config k
    end.
Proof.
  apply (first_configuration (Demo.lib Demo.forbidden_reply)
           Demo.custom_setup unconfigured).
  - apply NoDup_singleton.
  - vm_compute. reflexivity.
  - vm_compute. reflexivity.
  - reflexivity.
Defined.

(** X16. When config.json holds JSON that is not an object,
    [configure_addon] raises [AttributeError] from [config.update] and
    leaves every file as it was. *)
Theorem non_object_config_raises lib self f data text v :
  f !! setup_anki.addon_folder self = Some Directory ->
  f !! setup_anki.config_path self = Some (File data) ->
  text_decode lib data = Some text ->
  json_loads_str lib text = Some v ->
  (forall entries, v <> VDict entries) ->
  (run (setup_anki.configure_addon lib self) f).1 =
    Raise (Exc AttributeError
             ("'" +:+ type_name v +:+ "' object has no attribute 'update'")) /\
  fs (run (setup_anki.configure_addon lib self) f).2 = f.
Proof.
  intros Hfolder Hconfig Hdecode Hloads Hother.
  assert (Hpresent1 :
    bool_decide (is_Some (f !! setup_anki.addon_folder self)) = true).
  { apply bool_decide_eq_true_2. rewrite Hfolder. eauto. }
  assert (Hpresent2 :
    bool_decide (is_Some (f !! setup_anki.config_path self)) = true).
  { apply bool_decide_eq_true_2. rewrite Hconfig. eauto. }
  destruct v; try (exfalso; eapply Hother; reflexivity); run_along.
Qed.

Lemma non_object_config_raises_witness :
  (run (setup_anki.configure_addon (Demo.lib Demo.forbidden_reply)
          Demo.custom_setup) list_config).1 =
    Raise (Exc AttributeError "'list' object has no attribute 'update'") /\
  fs (run (setup_anki.configure_addon (Demo.lib Demo.forbidden_reply)
            Demo.custom_setup) list_config).2 = list_config.
Proof.
  apply (non_object_config_raises (Demo.lib Demo.forbidden_reply)
           Demo.custom_setup list_config (encode_utf8 "[1, 2]") "[1, 2]"
           (VList [VInt 1; VInt 2])).
  - vm_compute. reflexivity.
  - vm_compute. reflexivity.
  - vm_compute. reflexivity.
  - vm_compute. reflexivity.
  - intros entries H. discriminate H.
Defined.

(** ** Further properties of the profile, the add-on and the environment *)

(** The test [p.exists()] on a path that is absent, and on one that is
    there. *)
Lemma absent_test (f : gmap path node) p :
  f !! p = None -> bool_decide (is_Some (f !! p)) = false.
Proof.
  intros H. apply bool_decide_eq_false_2. rewrite H. intros [? ?]. discriminate.
Qed.

Lemma present_test (f : gmap path node) p :
  is_Some (f !! p) -> bool_decide (is_Some (f !! p)) = true.
Proof. apply bool_decide_eq_true_2. Qed.

(** X20. When no key and no user are given but a password is, and sync
    is wanted, [create_profile] returns [False] after reporting that the
    user is required: no request is made and no file is created. *)
Theorem password_needs_user lib self sync_password f :
  f !! setup_anki.prefs_db self = None ->
  setup_anki.truthy_opt sync_password = true ->
  run (setup_anki.create_profile lib self "" "" sync_password false) f =
    (Ret false,
     State f
       [FsExists (setup_anki.prefs_db self);
        Stdout "[*] Creating profile database...";
        Stdout "[ERROR] sync_user required when using password"]).
Proof.
  intros Habsent Hpassword. apply absent_test in Habsent.
  apply exchange_run_wp. wp_go. reflexivity.
Qed.

Lemma password_needs_user_witness :
  run (setup_anki.create_profile (Demo.lib Demo.forbidden_reply)
         Demo.demo_setup "" "" (Some "secret") false) ∅ =
    (Ret false,
     State ∅
       [FsExists (setup_anki.prefs_db Demo.demo_setup);
        Stdout "[*] Creating profile database...";
        Stdout "[ERROR] sync_user required when using password"]).
Proof.
  apply (password_needs_user (Demo.lib Demo.forbidden_reply) Demo.demo_setup
           (Some "secret") ∅).
  - reflexivity.
  - reflexivity.
Defined.



(** *** Creating the directories on a path *)
Lemma take_step (done : path) name (todo : list string) k :
  done ++ take (S k) (name :: todo) = path_join done name ++ take k todo.
Proof. unfold path_join. rewrite <- app_assoc. reflexivity. Qed.

Lemma mkdir_parents_go_wp done todo f tr :
  wp (mkdir_parents_go done todo)
     (fun r f' tr' =>
        (exists evs, tr' = tr ++ evs /\ forallb is_mkdir evs = true) /\
        (forall q, f' !! q = f !! q \/
           (f !! q = None /\ f' !! q = Some Directory /\
            exists k, (0 < k <= length todo)%nat /\ q = done ++ take k todo)) /\
        (clear_way f done todo ->
           r = Ret tt /\
           forall k, (0 < k <= length todo)%nat ->
             f' !! (done ++ take k todo) = Some Directory))
     f tr.
Proof.
  revert done f tr. induction todo as [|name todo IH]; intros done f tr.
  - cbn [mkdir_parents_go]. apply wp_ret. split; [|split].
    + exists []. rewrite app_nil_r. auto.
    + auto.
    + intros _. split; [reflexivity|]. cbn [length]. lia.
  - cbn [mkdir_parents_go]. cbv zeta. apply wp_bind, wp_get_fs.
    destruct (f !! path_join done name) as [[|data|stmts]|] eqn:Hnode.
    + eapply wp_mono; [|apply IH].
      intros r f' tr' ((evs & -> & Hevs) & Hchange & Hok).
      split; [eauto|split].
      * intros q. destruct (Hchange q) as [Hq|(Hq1 & Hq2 & k & Hk & ->)];
          [auto|].
        right. split; [exact Hq1|split; [exact Hq2|]].
        exists (S k). rewrite take_step. cbn [length]. split; [lia|reflexivity].
      * intros Hway.
        destruct Hok as [-> Hdirs].
        { intros k Hk. rewrite <- take_step. apply Hway. cbn [length]. lia. }
        split; [reflexivity|].
        intros [|k] Hk; [lia|]. rewrite take_step.
        destruct k as [|k].
        -- rewrite take_0, app_nil_r.
           destruct (Hchange (path_join done name)) as [Hq|(Hq & _)].
           ++ rewrite Hq. exact Hnode.
           ++ discriminate (eq_trans (eq_sym Hq) Hnode).
        -- apply Hdirs. cbn [length] in Hk. lia.
    + apply wp_raise. split; [|split].
      * exists []. rewrite app_nil_r. auto.
      * auto.
      * intros Hway. destruct (Hway 1%nat) as [Hq|Hq];
          [cbn [length]; lia|..];
          discriminate (eq_trans (eq_sym Hq) Hnode).
    + apply wp_raise. split; [|split].
      * exists []. rewrite app_nil_r. auto.
      * auto.
      * intros Hway. destruct (Hway 1%nat) as [Hq|Hq];
          [cbn [length]; lia|..];
          discriminate (eq_trans (eq_sym Hq) Hnode).
    + apply wp_bind, wp_emit, wp_bind, wp_put_fs.
      eapply wp_mono; [|apply IH].
      intros r f' tr' ((evs & -> & Hevs) & Hchange & Hok).
      split; [|split].
      * exists (FsMkdir (path_join done name) :: evs).
        rewrite <- app_assoc. split; [reflexivity|exact Hevs].
      * intros q. destruct (decide (q = path_join done name)) as [->|Hne].
        -- right. split; [exact Hnode|]. split.
           ++ destruct (Hchange (path_join done name)) as [->|(Hq & _)].
              ** apply lookup_insert_eq.
              ** rewrite lookup_insert_eq in Hq. discriminate.
           ++ exists 1%nat. rewrite take_step, take_0, app_nil_r.
              cbn [length]. split; [lia|reflexivity].
        -- destruct (Hchange q) as [Hq|(Hq1 & Hq2 & k & Hk & ->)].
           ++ left. rewrite Hq. apply lookup_insert_ne. congruence.
           ++ right. rewrite lookup_insert_ne in Hq1 by congruence.
              split; [exact Hq1|split; [exact Hq2|]].
              exists (S k). rewrite take_step. cbn [length].
              split; [lia|reflexivity].
      * intros Hway.
        destruct Hok as [-> Hdirs].
        { intros k Hk. rewrite <- take_step.
          destruct (decide (done ++ take (S k) (name :: todo) =
                            path_join done name)) as [->|Hne].
          - right. apply lookup_insert_eq.
          - rewrite lookup_insert_ne by congruence.
            apply Hway. cbn [length]. lia. }
        split; [reflexivity|].
        intros [|k] Hk; [lia|]. rewrite take_step.
        destruct k as [|k].
        -- rewrite take_0, app_nil_r.
           destruct (Hchange (path_join done name)) as [->|(Hq & _)].
           ++ apply lookup_insert_eq.
           ++ rewrite lookup_insert_eq in Hq. discriminate.
        -- apply Hdirs. cbn [length] in Hk. lia.
Qed.

(** Steps through [mkdir(parents=True)] and through a look-up of the
    path just written. *)
Ltac wp_fs :=
  lazymatch goal with
  | |- wp (mkdir_parents _) _ _ _ =>
      unfold mkdir_parents; eapply wp_mono; [|apply mkdir_parents_go_wp];
      intros [[]|?] ? ? ((? & -> & ?) & ? & ?)
  | |- wp (match <[?p := ?x]> ?f !! ?p with _ => _ end) _ _ _ =>
      rewrite (lookup_insert_eq f p x)
  end; cbv beta iota.

Ltac wp_walk := repeat first [wp_fs | wp_step].

Lemma mkdir_is_local evs :
  forallb is_mkdir evs = true -> List.filter is_network evs = [].
Proof.
  induction evs as [|[] evs IH]; cbn; try discriminate; auto.
Qed.

(** X22. Whatever its arguments and the files, [create_profile] returns
    [True] only with the profile database in place, and returns [False]
    only where the database was absent and no file has been created or
    changed. *)
Theorem profile_outcomes lib self sync_user sync_key sync_password no_sync f :
  let r :=
    run (setup_anki.create_profile lib self sync_user sync_key sync_password
           no_sync) f in
  (r.1 = Ret true -> is_Some (fs r.2 !! setup_anki.prefs_db self)) /\
  (r.1 = Ret false -> fs r.2 = f /\ f !! setup_anki.prefs_db self = None).
Proof.
  intros r. subst r. apply exchange_run_wp. cbn [fst snd fs trace].
  wp_walk.
  all: split; intros Hr; try discriminate Hr.
  all: try (apply bool_decide_eq_true in Heqb; exact Heqb).
  all: try (split; [reflexivity|];
            apply bool_decide_eq_false in Heqb;
            apply eq_None_not_Some; exact Heqb).
  all: cbn [conn_path]; rewrite lookup_insert_eq; eauto.
Qed.

(** The requests of [create_profile], on every path. *)
Lemma create_profile_requests lib self sync_user sync_key sync_password no_sync f :
  List.filter is_network
    (trace (run (setup_anki.create_profile lib self sync_user sync_key
                   sync_password no_sync) f).2) =
  if bool_decide (is_Some (f !! setup_anki.prefs_db self)) then []
  else if asks_for_key sync_user sync_key sync_password no_sync
       then [login_post lib sync_user (default "" sync_password)]
       else [].
Proof.
  apply exchange_run_wp. cbn [fst snd fs trace]. unfold asks_for_key.
  wp_walk.
  all: repeat match goal with
             | H : negb _ = true |- _ => apply negb_true_iff in H
             | H : negb _ = false |- _ => apply negb_false_iff in H
             end.
  all: try match goal with
          | H : false = true |- _ => discriminate H
          | H : true = false |- _ => discriminate H
          end.
  all: repeat match goal with
             | H : truthy (VStr _) = _ |- _ => rewrite H; clear H
             end.
  all: rewrite ?List.filter_app.
  all: repeat match goal with
             | H : forallb is_mkdir _ = true |- _ =>
                 rewrite (mkdir_is_local _ H); clear H
             end.
  all: reflexivity.
Qed.

(** X23. [create_profile] makes a network request exactly when the
    database is absent, no key is given, a password and a user are given
    and sync is wanted; it is then the one login request for that user
    and password, also on the paths that end in an exception. *)
Theorem profile_network lib self sync_user sync_key sync_password no_sync f :
  List.filter is_network
    (trace (run (setup_anki.create_profile lib self sync_user sync_key
                   sync_password no_sync) f).2) =
  if bool_decide (is_Some (f !! setup_anki.prefs_db self)) then []
  else if asks_for_key sync_user sync_key sync_password no_sync
       then [login_post lib sync_user (default "" sync_password)]
       else [].
Proof. apply create_profile_requests. Qed.

(** *** The profile database *)
Ltac wp_until_mkdir :=
  repeat (lazymatch goal with
          | |- wp (mkdir_parents _) _ _ _ => fail
          | |- _ => wp_step
          end).

Ltac wp_db :=
  lazymatch goal with
  | |- wp (match <[_ := _]> _ !! _ with _ => _ end) _ _ _ =>
      cbn [conn_path pending]; rewrite lookup_insert_eq
  end; cbv beta iota.

Ltac wp_store := repeat first [wp_db | wp_step].

Lemma mkdir_parents_clear (p : path) (f : gmap path node) (tr : list event)
    (Q : result unit -> gmap path node -> list event -> Prop) :
  clear_way f [] p ->
  (forall f' evs,
     forallb is_mkdir evs = true ->
     (forall q : path, f' !! q = f !! q \/
        (f !! q = None /\ f' !! q = Some Directory /\
         exists k, (0 < k <= length p)%nat /\ q = take k p)) ->
     (forall k, (0 < k <= length p)%nat -> f' !! take k p = Some Directory) ->
     Q (Ret tt) f' (tr ++ evs)) ->
  wp (mkdir_parents p) Q f tr.
Proof.
  intros Hway HQ. unfold mkdir_parents.
  eapply wp_mono; [|apply mkdir_parents_go_wp].
  intros r f' tr' ((evs & -> & Hevs) & Hchange & Hok).
  destruct (Hok Hway) as [-> Hdirs].
  apply HQ; [exact Hevs|exact Hchange|exact Hdirs].
Qed.

Lemma longer_is_no_prefix (p : path) name k : path_join p name <> take k p.
Proof.
  intros H. apply (f_equal length) in H.
  unfold path_join in H. rewrite length_app, length_take in H.
  cbn [length] in H. lia.
Qed.

Lemma profile_is_stored_in lib self sync_user sync_key sync_password no_sync f :
  setup_anki.prefs_db self = path_join (setup_anki.anki2_dir self) "prefs21.db" ->
  setup_anki.anki2_dir self <> [] ->
  f !! setup_anki.prefs_db self = None ->
  clear_way f [] (setup_anki.anki2_dir self) ->
  negb (truthy (VStr sync_key)) && setup_anki.truthy_opt sync_password &&
    negb no_sync = false ->
  let r :=
    run (setup_anki.create_profile lib self sync_user sync_key sync_password
           no_sync) f in
  r.1 = Ret true /\
  fs r.2 !! setup_anki.prefs_db self =
    Some (Database
      [CreateProfilesTable;
       InsertProfile "_global"
         (pickle_dumps lib
            (VDict [("last_loaded_profile", VStr "user");
                    ("defaultLang",
                     VStr (default "en_US" (getenv lib "ANKI_LANG")));
                    ("firstRun", VBool false)]));
       InsertProfile "user"
         (pickle_dumps lib
            (VDict [("syncUser", VStr (if no_sync then "" else sync_user));
                    ("syncKey", VStr (if no_sync then "" else sync_key));
                    ("currentSyncUrl", VStr "https://sync21.ankiweb.net/");
                    ("hostNum", VInt 21);
                    ("autoSync", VBool (truthy (VStr sync_key)));
                    ("syncMedia", VBool (truthy (VStr sync_key)))]))]) /\
  forall q : path,
    q <> setup_anki.prefs_db self ->
    fs r.2 !! q = f !! q \/
    (f !! q = None /\ fs r.2 !! q = Some Directory /\
     exists k, q = take k (setup_anki.anki2_dir self)).
Proof.
  intros Hdb Hdir Habsent Hway Hgiven r. subst r.
  pose proof (absent_test _ _ Habsent) as Hpresent.
  apply exchange_run_wp. cbn [fst snd fs trace].
  wp_until_mkdir.
  apply mkdir_parents_clear; [exact Hway|].
  intros f' evs Hevs Hchange Hdirs.
  assert (Hnew : f' !! setup_anki.prefs_db self = None).
  { destruct (Hchange (setup_anki.prefs_db self))
      as [Hq|(_ & _ & k & _ & Hq)].
    - exact (eq_trans Hq Habsent).
    - rewrite Hdb in Hq. destruct (longer_is_no_prefix _ _ _ Hq). }
  assert (Hparent : f' !! parent (setup_anki.prefs_db self) = Some Directory).
  { rewrite Hdb, parent_path_join.
    rewrite <- (firstn_all (setup_anki.anki2_dir self)) at 1.
    apply Hdirs. destruct (setup_anki.anki2_dir self); [congruence|].
    cbn [length]. lia. }
  wp_store.
  all: destruct no_sync.
  all: (split; [reflexivity|]; split;
        [cbn [conn_path pending]; rewrite lookup_insert_eq; reflexivity|]).
  all: intros q Hq; cbn [conn_path pending];
       rewrite !lookup_insert_ne by congruence;
       destruct (Hchange q) as [Hsame|(Hnone & Hmade & k & _ & Hk)];
       [left; exact Hsame|right; eauto].
Qed.

Lemma init_has_directory config_dir verbose cfg :
  setup_anki.anki2_dir (setup_anki.init config_dir verbose cfg) <> [].
Proof.
  cbn [setup_anki.init setup_anki.anki2_dir]. unfold path_join.
  intros H. apply (f_equal length) in H. rewrite !length_app in H.
  cbn [length] in H. lia.
Qed.

(** X24. When the database is absent, nothing but directories stands
    in the way of the profile folder and no key has to be fetched,
    [create_profile] returns [True] and leaves a database with the
    profiles table and the two committed records [_global] and [user];
    the user record holds the user and the key, or two empty strings with
    [no_sync], while [autoSync] and [syncMedia] follow the key given even
    with [no_sync]; beside the database only directories on the way to it
    are created. *)
Theorem profile_is_stored lib config_dir verbose cfg sync_user sync_key
    sync_password no_sync f :
  let self := setup_anki.init config_dir verbose cfg in
  f !! setup_anki.prefs_db self = None ->
  clear_way f [] (setup_anki.anki2_dir self) ->
  negb (truthy (VStr sync_key)) && setup_anki.truthy_opt sync_password &&
    negb no_sync = false ->
  let r :=
    run (setup_anki.create_profile lib self sync_user sync_key sync_password
           no_sync) f in
  r.1 = Ret true /\
  fs r.2 !! setup_anki.prefs_db self =
    Some (Database
      [CreateProfilesTable;
       InsertProfile "_global"
         (pickle_dumps lib
            (VDict [("last_loaded_profile", VStr "user");
                    ("defaultLang",
                     VStr (default "en_US" (getenv lib "ANKI_LANG")));
                    ("firstRun", VBool false)]));
       InsertProfile "user"
         (pickle_dumps lib
            (VDict [("syncUser", VStr (if no_sync then "" else sync_user));
                    ("syncKey", VStr (if no_sync then "" else sync_key));
                    ("currentSyncUrl", VStr "https://sync21.ankiweb.net/");
                    ("hostNum", VInt 21);
                    ("autoSync", VBool (truthy (VStr sync_key)));
                    ("syncMedia", VBool (truthy (VStr sync_key)))]))]) /\
  forall q : path,
    q <> setup_anki.prefs_db self ->
    fs r.2 !! q = f !! q \/
    (f !! q = None /\ fs r.2 !! q = Some Directory /\
     exists k, q = take k (setup_anki.anki2_dir self)).
Proof.
  intros self Habsent Hway Hgiven.
  apply (profile_is_stored_in lib self); try assumption.
  - reflexivity.
  - apply init_has_directory.
Qed.

Lemma profile_is_stored_witness :
  let self := Demo.demo_setup in
  let r := run (setup_anki.create_profile (Demo.lib Demo.forbidden_reply) self
                  "" "0123abcd" None true) ∅ in
  r.1 = Ret true /\
  fs r.2 !! setup_anki.prefs_db self =
    Some (Database
      [CreateProfilesTable;
       InsertProfile "_global"
         (pickle_dumps (Demo.lib Demo.forbidden_reply)
            (VDict [("last_loaded_profile", VStr "user");
                    ("defaultLang", VStr "en_US");
                    ("firstRun", VBool false)]));
       InsertProfile "user"
         (pickle_dumps (Demo.lib Demo.forbidden_reply)
            (VDict [("syncUser", VStr "");
                    ("syncKey", VStr "");
                    ("currentSyncUrl", VStr "https://sync21.ankiweb.net/");
                    ("hostNum", VInt 21);
                    ("autoSync", VBool true);
                    ("syncMedia", VBool true)]))]) /\
  forall q : path,
    q <> setup_anki.prefs_db self ->
    fs r.2 !! q = (∅ : gmap path node) !! q \/
    ((∅ : gmap path node) !! q = None /\ fs r.2 !! q = Some Directory /\
     exists k, q = take k (setup_anki.anki2_dir self)).
Proof.
  apply (profile_is_stored (Demo.lib Demo.forbidden_reply) ["" ; "config"]
           false None "" "0123abcd" None true ∅).
  - reflexivity.
  - intros k _. left. reflexivity.
  - reflexivity.
Defined.

(** *** The add-on

    What [download_addon] returns does not depend on the files or on what
    happened before. *)
Lemma download_addon_frame lib self addon_id f tr :
  wp (setup_anki.download_addon lib self addon_id)
     (fun r f' tr' =>
        r = (run (setup_anki.download_addon lib self addon_id) f).1 /\
        f' = f /\ exists evs, tr' = tr ++ evs /\
        List.filter is_file_access evs = [])
     f tr.
Proof.
  wp_go.
  all: split;
    [|split; [reflexivity|eexists; rewrite <- ?app_assoc;
                          split; [reflexivity|reflexivity]]].
  all: symmetry;
       apply (exchange_run_wp _ (fun p => p.1 = _)); cbn [fst]; wp_go;
       reflexivity.
Qed.

Ltac wp_until_call :=
  repeat (lazymatch goal with
          | |- wp (mkdir_parents _) _ _ _ => fail
          | |- wp (setup_anki.download_addon _ _ _) _ _ _ => fail
          | |- _ => wp_step
          end).

Lemma present_addon_is_installed lib self f :
  is_Some (f !! setup_anki.addon_folder self) ->
  (run (setup_anki.install_addon lib self) f).1 = Ret true.
Proof.
  intros Hexists. apply present_test in Hexists.
  apply (exchange_run_wp _ (fun p => p.1 = _)). cbn [fst]. wp_go. reflexivity.
Qed.



(** X26. When [config.json] exists and its octets do not decode as
    text, [configure_addon] raises [UnicodeDecodeError], which its
    [except json.JSONDecodeError] does not catch, and leaves every file
    as it was. *)
Theorem undecodable_config_raises lib self f data :
  f !! setup_anki.addon_folder self = Some Directory ->
  f !! setup_anki.config_path self = Some (File data) ->
  text_decode lib data = None ->
  (exists msg,
     (run (setup_anki.configure_addon lib self) f).1 =
       Raise (Exc UnicodeDecodeError msg)) /\
  fs (run (setup_anki.configure_addon lib self) f).2 = f.
Proof.
  intros Hfolder Hconfig Hdecode.
  assert (Hpresent1 :
    bool_decide (is_Some (f !! setup_anki.addon_folder self)) = true).
  { apply bool_decide_eq_true_2. rewrite Hfolder. eauto. }
  assert (Hpresent2 :
    bool_decide (is_Some (f !! setup_anki.config_path self)) = true).
  { apply bool_decide_eq_true_2. rewrite Hconfig. eauto. }
  split.
  - apply (exchange_run_wp _ (fun r => exists msg, r.1 = Raise (Exc _ msg))).
    cbn [fst]. wp_go. eexists. reflexivity.
  - apply (exchange_run_wp _ (fun r => fs r.2 = _)). cbn [snd fs]. wp_go.
    reflexivity.
Qed.

Lemma undecodable_config_raises_witness :
  (exists msg,
     (run (setup_anki.configure_addon (Demo.lib Demo.forbidden_reply)
             Demo.custom_setup) binary_config).1 =
       Raise (Exc UnicodeDecodeError msg)) /\
  fs (run (setup_anki.configure_addon (Demo.lib Demo.forbidden_reply)
             Demo.custom_setup) binary_config).2 = binary_config.
Proof.
  apply (undecodable_config_raises (Demo.lib Demo.forbidden_reply)
           Demo.custom_setup binary_config [Byte.xff]).
  - vm_compute. reflexivity.
  - vm_compute. reflexivity.
  - reflexivity.
Defined.

(** *** The settings of the environment *)
Lemma dict_set_keys d k v k' :
  In k' (map fst (dict_set d k v)) <-> k' = k \/ In k' (map fst d).
Proof.
  induction d as [|[k0 v0] d IH]; cbn [dict_set map fst In].
  - intuition congruence.
  - destruct (String.eqb_spec k0 k) as [->|Hne]; cbn [map fst In].
    + intuition congruence.
    + rewrite IH. intuition congruence.
Qed.

Lemma dict_set_nodup d k v :
  List.NoDup (map fst d) -> List.NoDup (map fst (dict_set d k v)).
Proof.
  induction d as [|[k0 v0] d IH]; cbn [dict_set map fst]; intros Hd.
  - constructor; [intros []|constructor].
  - inversion Hd as [|? ? Hnotin Hrest]; subst.
    destruct (String.eqb_spec k0 k) as [->|Hne]; cbn [map fst].
    + constructor; assumption.
    + constructor; [|auto].
      rewrite dict_set_keys. intros [->|Hin]; [congruence|contradiction].
Qed.

Lemma set_if_keys x key g d k :
  In k (map fst (setup_anki.set_if x key g d)) -> k = key \/ In k (map fst d).
Proof.
  unfold setup_anki.set_if.
  destruct x as [text|]; [|auto].
  destruct (truthy (VStr text)); [|auto].
  destruct (g text); [|auto].
  rewrite dict_set_keys. auto.
Qed.

Lemma set_if_nodup x key g d :
  List.NoDup (map fst d) -> List.NoDup (map fst (setup_anki.set_if x key g d)).
Proof.
  unfold setup_anki.set_if.
  destruct x as [text|]; [|auto].
  destruct (truthy (VStr text)); [|auto].
  destruct (g text); [|auto].
  apply dict_set_nodup.
Qed.

(** X27. The AnkiConnect settings [get_env_config] reads from the
    environment have pairwise distinct keys, each of them one of
    [webBindAddress], [webBindPort], [webCorsOriginList], [apiKey] and
    [apiLogPath], which are keys of the built-in defaults of
    [configure_addon]. *)
Theorem environment_keys lib :
  let config := setup_anki.env_ankiconnect_config (setup_anki.get_env_config lib) in
  NoDup (map fst config) /\
  forall k, In k (map fst config) ->
    In k ["webBindAddress"; "webBindPort"; "webCorsOriginList"; "apiKey";
          "apiLogPath"] /\
    In k (map fst setup_anki.default_config).
Proof.
  intros config. subst config.
  unfold setup_anki.get_env_config. cbn [setup_anki.env_ankiconnect_config].
  split.
  - apply NoDup_ListNoDup. repeat apply set_if_nodup. constructor.
  - intros k Hk.
    repeat (apply set_if_keys in Hk as [->|Hk];
            [split; cbn; tauto|]).
    destruct Hk.
Qed.



(** *** The command line

    A computation followed by a pure function of its value. *)
Lemma run_bind_ret {A B} (m : M A) (g : A -> B) f :
  (run (x <- m;; ret (g x)) f).2 = (run m f).2 /\
  (run (x <- m;; ret (g x)) f).1 =
    match (run m f).1 with
    | Ret a => Ret (g a)
    | Raise e => Raise e
    end.
Proof.
  unfold run, bind, ret. destruct (m _) as [[a|e] s]; split; reflexivity.
Qed.

(** X29. Once [parser.parse_args()] has returned, [main] with the action
    [create-profile] makes no network request when the key is not empty,
    the key being the one of the command line or, where that is absent or
    empty, the one of the environment; a password does not matter
    then. *)
Theorem given_key_needs_no_login lib args f :
  setup_anki.arg_action args = setup_anki.CreateProfile ->
  setup_anki.or_str (setup_anki.arg_sync_key args)
    (setup_anki.env_sync_key (setup_anki.get_env_config lib)) <> "" ->
  List.filter is_network (trace (run (setup_anki.main lib args) f).2) = [].
Proof.
  intros Haction Hkey. unfold setup_anki.main. rewrite Haction. cbv zeta.
  destruct (run_bind_ret
              (setup_anki.create_profile lib
                 (setup_anki.init
                    (path_join_name []
                       (default (default "/config" (getenv lib "CONFIG_DIR"))
                          (setup_anki.arg_config_dir args)))
                    (setup_anki.arg_verbose args)
                    (Some (setup_anki.env_ankiconnect_config
                             (setup_anki.get_env_config lib))))
                 (setup_anki.or_str (setup_anki.arg_sync_user args)
                    (setup_anki.env_sync_user (setup_anki.get_env_config lib)))
                 (setup_anki.or_str (setup_anki.arg_sync_key args)
                    (setup_anki.env_sync_key (setup_anki.get_env_config lib)))
                 (setup_anki.or_opt (setup_anki.arg_sync_password args)
                    (setup_anki.env_sync_password
                       (setup_anki.get_env_config lib)))
                 (setup_anki.arg_no_sync args))
              (fun success : bool => if success then 0 else 1) f) as [Hstate _].
  rewrite Hstate, create_profile_requests.
  destruct (bool_decide _); [reflexivity|].
  unfold asks_for_key. cbn [truthy].
  apply String.eqb_neq in Hkey. rewrite Hkey. reflexivity.
Qed.

Lemma given_key_needs_no_login_witness :
  List.filter is_network
    (trace (run (setup_anki.main exported
                   {| setup_anki.arg_action := setup_anki.CreateProfile;
                      setup_anki.arg_config_dir := None;
                      setup_anki.arg_sync_user := Some "user@example.com";
                      setup_anki.arg_sync_key := None;
                      setup_anki.arg_sync_password := None;
                      setup_anki.arg_no_sync := false;
                      setup_anki.arg_verbose := false |}) ∅).2) = [].
Proof.
  apply (given_key_needs_no_login exported
           {| setup_anki.arg_action := setup_anki.CreateProfile;
              setup_anki.arg_config_dir := None;
              setup_anki.arg_sync_user := Some "user@example.com";
              setup_anki.arg_sync_key := None;
              setup_anki.arg_sync_password := None;
              setup_anki.arg_no_sync := false;
              setup_anki.arg_verbose := false |} ∅).
  - reflexivity.
  - discriminate.
Defined.

(** X30. Once [parser.parse_args()] has returned, [main] with the action
    [create-profile] or [setup-all] passes 1 to [sys.exit], changes no
    file and makes no request, when neither the command line nor the
    environment gives a user or a key, one of them gives a password, sync
    is wanted and the profile database is absent. *)
Theorem password_alone_fails lib args f :
  (setup_anki.arg_action args = setup_anki.CreateProfile \/
   setup_anki.arg_action args = setup_anki.SetupAll) ->
  setup_anki.or_str (setup_anki.arg_sync_user args)
    (setup_anki.env_sync_user (setup_anki.get_env_config lib)) = "" ->
  setup_anki.or_str (setup_anki.arg_sync_key args)
    (setup_anki.env_sync_key (setup_anki.get_env_config lib)) = "" ->
  setup_anki.truthy_opt
    (setup_anki.or_opt (setup_anki.arg_sync_password args)
       (setup_anki.env_sync_password (setup_anki.get_env_config lib))) =
    true ->
  setup_anki.arg_no_sync args = false ->
  f !! setup_anki.prefs_db
         (setup_anki.init
            (path_join_name []
               (default (default "/config" (getenv lib "CONFIG_DIR"))
                  (setup_anki.arg_config_dir args)))
            (setup_anki.arg_verbose args)
            (Some (setup_anki.env_ankiconnect_config
                     (setup_anki.get_env_config lib)))) = None ->
  (run (setup_anki.main lib args) f).1 = Ret 1 /\
  fs (run (setup_anki.main lib args) f).2 = f /\
  List.filter is_network (trace (run (setup_anki.main lib args) f).2) = [].
Proof.
  intros Haction Huser Hkey Hpassword Hsync Habsent.
  apply absent_test in Habsent.
  unfold setup_anki.main. cbv zeta.
  rewrite Huser, Hkey, Hsync.
  destruct Haction as [-> | ->]; apply exchange_run_wp;
    cbn [fst snd fs trace]; wp_go; repeat split; reflexivity.
Qed.

Lemma password_alone_fails_witness :
  let args :=
    {| setup_anki.arg_action := setup_anki.SetupAll;
       setup_anki.arg_config_dir := Some "/config";
       setup_anki.arg_sync_user := Some "";
       setup_anki.arg_sync_key := None;
       setup_anki.arg_sync_password := Some "secret";
       setup_anki.arg_no_sync := false;
       setup_anki.arg_verbose := false |} in
  (run (setup_anki.main (Demo.lib Demo.forbidden_reply) args) ∅).1 = Ret 1 /\
  fs (run (setup_anki.main (Demo.lib Demo.forbidden_reply) args) ∅).2 = ∅ /\
  List.filter is_network
    (trace (run (setup_anki.main (Demo.lib Demo.forbidden_reply) args) ∅).2)
    = [].
Proof.
  apply (password_alone_fails (Demo.lib Demo.forbidden_reply)
           {| setup_anki.arg_action := setup_anki.SetupAll;
              setup_anki.arg_config_dir := Some "/config";
              setup_anki.arg_sync_user := Some "";
              setup_anki.arg_sync_key := None;
              setup_anki.arg_sync_password := Some "secret";
              setup_anki.arg_no_sync := false;
              setup_anki.arg_verbose := false |} ∅).
  - right. reflexivity.
  - reflexivity.
  - reflexivity.
  - reflexivity.
  - reflexivity.
  - reflexivity.
Defined.
